(** * Subscription entitlement: plan catalog, limit evaluator, reconciler
    and purchase flow

  A shallow embedding of
    - [subscription-utils.ts]            (module [SubscriptionUtils]),
    - [services/purchases.ts]            (module [PurchasesService]),
    - [hooks/usePurchases.ts]            (module [UsePurchases]),
    - [hooks/useHouseholdSubscription]   (module [UseHouseholdSubscription]),
    - [pages/Pricing.tsx], [handleUpgrade] (module [Pricing]), its mobile
      handlers (module [PricingHandlers]) and its two purchases hooks
      (module [PricingPage]),
  followed by the properties established about them. *)

From Stdlib Require Import ZArith Bool List String Lia.
Import ListNotations.
Local Open Scope string_scope.
Local Open Scope list_scope.
Local Open Scope Z_scope.

(* ================================================================== *)
(** * JavaScript values and the short-circuit operators *)
(* ================================================================== *)

Module Js.

(** The run-time values that flow through the reconciler and the limit
    evaluator: [undefined], booleans, (integral) numbers and strings. *)
Inductive value : Type :=
| VUndefined
| VBool (b : bool)
| VNum (n : Z)
| VStr (s : string).

(** ToBoolean. *)
Definition truthy (v : value) : bool :=
  match v with
  | VUndefined => false
  | VBool b => b
  | VNum n => negb (n =? 0)
  | VStr s => negb (s =? "")%string
  end.

(** [a || b] yields [a] itself when it is truthy, and [b] otherwise. *)
Definition js_or (a b : value) : value := if truthy a then a else b.

(** [a && b] yields [a] itself when it is falsy, and [b] otherwise. *)
Definition js_and (a b : value) : value := if truthy a then b else a.

(** [c ? a : b]. *)
Definition cond (c a b : value) : value := if truthy c then a else b.

(** An optional string property read off an object: a missing property
    reads as [undefined]. *)
Definition of_opt_string (o : option string) : value :=
  match o with
  | Some s => VStr s
  | None => VUndefined
  end.

(** [x === 'lit'] for an optional string-typed [x]. *)
Definition strict_eq_lit (o : option string) (lit : string) : bool :=
  match o with
  | Some s => (s =? lit)%string
  | None => false
  end.

Declare Scope js_scope.
Delimit Scope js_scope with js.
Infix "||" := js_or (at level 50, left associativity) : js_scope.
Infix "&&" := js_and (at level 40, left associativity) : js_scope.

End Js.

(* ================================================================== *)
(** * subscription-utils.ts *)
(* ================================================================== *)

Module SubscriptionUtils.
Import Js.

(** [type SubscriptionPlan = 'basic' | 'premium'] *)
Inductive SubscriptionPlan : Type := basic | premium.

Record SubscriptionLimits : Type := mkLimits {
  maxGroups : Z;
  maxEventsPerMonth : Z;
  maxMembersPerGroup : Z;
  canUseAdvancedFeatures : bool;
  hasRealTimeChat : bool;
  hasTaskManagement : bool;
  hasEventPlanning : bool;
  hasMailingLabels : bool
}.

(** [keyof SubscriptionLimits] *)
Inductive LimitsKey : Type :=
| key_maxGroups
| key_maxEventsPerMonth
| key_maxMembersPerGroup
| key_canUseAdvancedFeatures
| key_hasRealTimeChat
| key_hasTaskManagement
| key_hasEventPlanning
| key_hasMailingLabels.

Definition PLAN_LIMITS (plan : SubscriptionPlan) : SubscriptionLimits :=
  match plan with
  | basic =>
      {| maxGroups := 0;
         maxEventsPerMonth := 0;
         maxMembersPerGroup := -1;
         canUseAdvancedFeatures := false;
         hasRealTimeChat := true;
         hasTaskManagement := true;
         hasEventPlanning := false;
         hasMailingLabels := false |}
  | premium =>
      {| maxGroups := -1;
         maxEventsPerMonth := -1;
         maxMembersPerGroup := -1;
         canUseAdvancedFeatures := true;
         hasRealTimeChat := true;
         hasTaskManagement := true;
         hasEventPlanning := true;
         hasMailingLabels := true |}
  end.

Definition getPlanLimits (plan : SubscriptionPlan) : SubscriptionLimits :=
  PLAN_LIMITS plan.

(** [limits[feature]]: the stored property, a number or a boolean. *)
Definition get_property (limits : SubscriptionLimits) (feature : LimitsKey)
  : value :=
  match feature with
  | key_maxGroups => VNum (maxGroups limits)
  | key_maxEventsPerMonth => VNum (maxEventsPerMonth limits)
  | key_maxMembersPerGroup => VNum (maxMembersPerGroup limits)
  | key_canUseAdvancedFeatures => VBool (canUseAdvancedFeatures limits)
  | key_hasRealTimeChat => VBool (hasRealTimeChat limits)
  | key_hasTaskManagement => VBool (hasTaskManagement limits)
  | key_hasEventPlanning => VBool (hasEventPlanning limits)
  | key_hasMailingLabels => VBool (hasMailingLabels limits)
  end.

(** [return limits[feature] as boolean]: the type assertion is erased at
    run time, the stored value is returned as it is. *)
Definition canUserAccessFeature (userPlan : SubscriptionPlan)
           (feature : LimitsKey) : value :=
  let limits := getPlanLimits userPlan in
  get_property limits feature.

Definition canHouseholdAccessFeature (hasPremiumInHousehold : value)
           (feature : LimitsKey) : value :=
  let plan := if truthy hasPremiumInHousehold then premium else basic in
  canUserAccessFeature plan feature.

Definition hasReachedLimit (currentCount limit : Z) : bool :=
  if limit =? -1 then false
  else currentCount >=? limit.

Definition isBasicPlan (plan : SubscriptionPlan) : bool :=
  match plan with basic => true | premium => false end.

Definition isPremiumPlan (plan : SubscriptionPlan) : bool :=
  match plan with premium => true | basic => false end.

Definition isStripeSubscription (provider : option string) : bool :=
  negb (truthy (of_opt_string provider)) || strict_eq_lit provider "stripe".

Definition isRevenueCatSubscription (provider : option string) : bool :=
  strict_eq_lit provider "revenuecat".

(** The [subscriptionEndsAt?: Date | string] argument.  A [Date] object
    carries a time value in milliseconds, or none when it is an invalid
    date. *)
Inductive EndsAt : Type :=
| EndsAtDate (timeValue : option Z)
| EndsAtString (s : string).

Section Clock.

(** [Date.parse]: the time value a string denotes, none when the string
    is not a date. *)
Variable Date_parse : string -> option Z.

(** The time value of [new Date()] at the call. *)
Variable now : Z.

(** [if (subscriptionEndsAt)]: every object is truthy, a string is
    truthy unless empty. *)
Definition endsAt_truthy (e : EndsAt) : bool :=
  match e with
  | EndsAtDate _ => true
  | EndsAtString s => truthy (VStr s)
  end.

(** [new Date(subscriptionEndsAt)] *)
Definition new_Date (e : EndsAt) : option Z :=
  match e with
  | EndsAtDate tv => tv
  | EndsAtString s => Date_parse s
  end.

(** [a <= b] on two dates: compares the time values, and is false as
    soon as one of them is not a number. *)
Definition date_le (a b : option Z) : bool :=
  match a, b with
  | Some x, Some y => x <=? y
  | _, _ => false
  end.

Definition hasActiveSubscription
           (subscriptionPlan subscriptionStatus : option string)
           (subscriptionEndsAt : option EndsAt)
           (subscriptionProvider : option string) : bool :=
  if negb (strict_eq_lit subscriptionPlan "premium") then false
  else if negb (strict_eq_lit subscriptionStatus "active") then false
  else
    match subscriptionEndsAt with
    | Some e =>
        if endsAt_truthy e then
          let expirationDate := new_Date e in
          if date_le expirationDate (Some now) then false
          else true
        else true
    | None => true
    end.

End Clock.

End SubscriptionUtils.

(* ================================================================== *)
(** * Effects: calls, state updates and exceptions *)
(* ================================================================== *)

Module Effect.

(** A value caught by a [catch] clause, as far as the code inspects it:
    whether it is an [Error] instance, and its [message] and [code]
    properties.  An [Error] without a message of its own reads the empty
    string off its prototype. *)
Record Thrown : Type := mkThrown {
  is_Error : bool;
  message : option string;
  code : option string
}.

(** [new Error(msg)] *)
Definition new_Error (msg : string) : Thrown :=
  {| is_Error := true; message := Some msg; code := None |}.

(** [x || 'dflt'] for an optional string [x]. *)
Definition or_default (x : option string) (dflt : string) : string :=
  match x with
  | Some s => if (s =? "")%string then dflt else s
  | None => dflt
  end.

(** The argument of [toast({...})]. *)
Record Toast : Type := mkToast {
  title : string;
  description : string;
  variant : option string
}.

(** [entitlements.active[...]] entries of the provider's customer info. *)
Record EntitlementInfo : Type := mkEntitlementInfo {
  ent_isActive : bool;
  productIdentifier : string;
  willRenew : bool;
  ent_expirationDate : option string
}.

Record CustomerInfo : Type := mkCustomerInfo {
  entitlements_active : list (string * EntitlementInfo);
  originalPurchaseDate : option string;
  originalAppUserId : string
}.

(** [interface ActiveSubscription]; a date field holds the provider's
    string from which its [Date] was built. *)
Record ActiveSubscription : Type := mkActiveSubscription {
  productId : string;
  isActive : bool;
  renewalDate : option (option string);
  expirationDate : option string;
  originalTransactionId : option string;
  entitlements : list (string * EntitlementInfo)
}.

(** What a run does, in order: the calls it issues, the settlement of
    the requests it awaits and the state updates it requests. *)
Inductive event : Type :=
| ConsoleLog (msg : string)
| ConsoleError (msg : string)
| ToastShown (t : Toast)
| SetIsLoading (b : bool)
| SetActiveSubscription (a : option ActiveSubscription)
| SdkCall (method : string)
| ApiRequest (method url : string) (body : list (string * string))
| ApiSettled (url : string) (fulfilled : bool)
| SetTimeout (ms : Z) (dispatched : string)
| FormSubmit (action : string).

Inductive completion (A : Type) : Type :=
| Return (a : A)
| Throw (e : Thrown).
Arguments Return {A} a.
Arguments Throw {A} e.

(** A computation: the trace it leaves and how it completes. *)
Definition M (A : Type) : Type := (list event * completion A)%type.

Definition ret {A} (a : A) : M A := ([], Return a).

Definition throw {A} (e : Thrown) : M A := ([], Throw e).

Definition emit (e : event) : M unit := ([e], Return tt).

Definition bind {A B} (m : M A) (k : A -> M B) : M B :=
  match m with
  | (tr, Return a) => let (tr', c) := k a in (tr ++ tr', c)
  | (tr, Throw e) => (tr, Throw e)
  end.

(** [try { m } catch (error) { handler error }] *)
Definition try_catch {A} (m : M A) (handler : Thrown -> M A) : M A :=
  match m with
  | (tr, Return a) => (tr, Return a)
  | (tr, Throw e) => let (tr', c) := handler e in (tr ++ tr', c)
  end.

(** [try { m } finally { fin }]: [fin] runs however [m] completes, and
    the completion of [m] stands unless [fin] itself throws. *)
Definition try_finally {A} (m : M A) (fin : M unit) : M A :=
  let (tr, c) := m in
  match fin with
  | (tr', Return _) => (tr ++ tr', c)
  | (tr', Throw e) => (tr ++ tr', Throw e)
  end.

(** An awaited promise whose settlement is given. *)
Definition await {A} (outcome : Thrown + A) : M A :=
  match outcome with
  | inl e => throw e
  | inr a => ret a
  end.

Declare Scope effect_scope.
Delimit Scope effect_scope with effect.
Notation "x <- m ;; k" := (bind m (fun x => k))
  (at level 61, m at next level, right associativity) : effect_scope.
Notation "m ;; k" := (bind m (fun _ => k))
  (at level 61, right associativity) : effect_scope.

Definition console_log (msg : string) : M unit := emit (ConsoleLog msg).
Definition console_error (msg : string) : M unit := emit (ConsoleError msg).
Definition toast (t : Toast) : M unit := emit (ToastShown t).

(** [await apiRequest(method, url, body)], the request settling as
    [outcome] says. *)
Definition apiRequest {A} (method url : string) (body : list (string * string))
           (outcome : Thrown + A) : M A :=
  (emit (ApiRequest method url body) ;;
   emit (ApiSettled url (match outcome with inl _ => false | inr _ => true end)) ;;
   await outcome)%effect.

Definition trace {A} (m : M A) : list event := fst m.
Definition outcome {A} (m : M A) : completion A := snd m.

(** The toasts shown along a trace. *)
Fixpoint toasts (tr : list event) : list Toast :=
  match tr with
  | [] => []
  | ToastShown t :: tr' => t :: toasts tr'
  | _ :: tr' => toasts tr'
  end.

(** The network requests issued along a trace. *)
Fixpoint requests (tr : list event) : list (string * string) :=
  match tr with
  | [] => []
  | ApiRequest method url _ :: tr' => (method, url) :: requests tr'
  | _ :: tr' => requests tr'
  end.

(** Events that only log or call into the provider SDK: no state update,
    no toast, no network request, no timer. *)
Definition quiet (e : event) : bool :=
  match e with
  | ConsoleLog _ | ConsoleError _ | SdkCall _ => true
  | _ => false
  end.

End Effect.

(* ================================================================== *)
(** * services/purchases.ts *)
(* ================================================================== *)

Module PurchasesService.
Import Effect.
Local Open Scope effect_scope.

Record PurchasesError : Type := mkPurchasesError {
  err_message : string;
  err_code : string
}.

(** The resolved value of [purchaseProduct] and [restorePurchases]. *)
Record PurchaseResult : Type := mkPurchaseResult {
  success : bool;
  customerInfo : option CustomerInfo;
  error : option PurchasesError
}.

Record Product : Type := mkProduct { identifier : string }.

Record PurchasesPackage : Type := mkPackage { product : option Product }.

Record PurchasesOffering : Type := mkOffering {
  availablePackages : option (list PurchasesPackage)
}.

(** How the calls into the provider SDK settle during one run. *)
Record Sdk : Type := mkSdk {
  Purchases_getOfferings : Thrown + option PurchasesOffering;
  Purchases_purchasePackage : PurchasesPackage -> Thrown + CustomerInfo;
  Purchases_restorePurchases : Thrown + CustomerInfo;
  Purchases_getCustomerInfo : Thrown + CustomerInfo
}.

Definition ENTITLEMENTS_PREMIUM : string := "premium".

(** [obj[key]] on an object used as a map. *)
Fixpoint get_entry {A} (obj : list (string * A)) (key : string) : option A :=
  match obj with
  | [] => None
  | (k, v) :: rest => if (k =? key)%string then Some v else get_entry rest key
  end.

Section Service.

(** [Capacitor.isNativePlatform()] *)
Variable isNativePlatform : bool.

(** [this.isInitialized] of the singleton. *)
Variable isInitialized : bool.

Variable sdk : Sdk.

Definition getOfferings : M (list PurchasesOffering) :=
  try_catch
    (if negb isInitialized || negb isNativePlatform then ret []
     else
       emit (SdkCall "Purchases.getOfferings") ;;
       current <- await (Purchases_getOfferings sdk) ;;
       match current with
       | Some cur =>
           match availablePackages cur with
           | Some _ =>
               console_log "RevenueCat: Available offerings retrieved" ;;
               ret [cur]
           | None => ret []
           end
       | None => ret []
       end)
    (fun _ =>
       console_error "RevenueCat: Failed to get offerings" ;;
       ret []).

(** [pkg => pkg.product?.identifier === productId] *)
Definition package_matches (productId : string) (pkg : PurchasesPackage)
  : bool :=
  match product pkg with
  | Some p => (identifier p =? productId)%string
  | None => false
  end.

(** The loop over the offerings that looks for the package to purchase. *)
Fixpoint find_package (productId : string) (offerings : list PurchasesOffering)
         (packageToPurchase : option PurchasesPackage)
  : option PurchasesPackage :=
  match offerings with
  | [] => packageToPurchase
  | offering :: rest =>
      match availablePackages offering with
      | Some pkgs =>
          match find (package_matches productId) pkgs with
          | Some pkg => Some pkg
          | None => find_package productId rest None
          end
      | None => find_package productId rest packageToPurchase
      end
  end.

(** The result the [catch] clause builds from a caught object [e].
    Reading [message] off a caught [null] or [undefined] would throw
    instead; [Thrown] does not represent such rejections. *)
Definition failure (e : Thrown) (dflt : string) : PurchaseResult :=
  {| success := false;
     customerInfo := None;
     error := Some {| err_message := or_default (message e) dflt;
                      err_code := or_default (code e) "UNKNOWN_ERROR" |} |}.

Definition purchaseProduct (productId : string) : M PurchaseResult :=
  try_catch
    ((if negb isInitialized || negb isNativePlatform
      then throw (new_Error "RevenueCat not initialized or not on native platform")
      else ret tt) ;;
     offerings <- getOfferings ;;
     match find_package productId offerings None with
     | None =>
         throw (new_Error ("Product " ++ productId ++ " not found in offerings")%string)
     | Some packageToPurchase =>
         emit (SdkCall "Purchases.purchasePackage") ;;
         info <- await (Purchases_purchasePackage sdk packageToPurchase) ;;
         console_log "RevenueCat: Purchase successful" ;;
         ret {| success := true; customerInfo := Some info; error := None |}
     end)
    (fun e =>
       console_error "RevenueCat: Purchase failed" ;;
       ret (failure e "Purchase failed")).

Definition restorePurchases : M PurchaseResult :=
  try_catch
    ((if negb isInitialized || negb isNativePlatform
      then throw (new_Error "RevenueCat not initialized or not on native platform")
      else ret tt) ;;
     emit (SdkCall "Purchases.restorePurchases") ;;
     info <- await (Purchases_restorePurchases sdk) ;;
     console_log "RevenueCat: Purchases restored" ;;
     ret {| success := true; customerInfo := Some info; error := None |})
    (fun e =>
       console_error "RevenueCat: Restore purchases failed" ;;
       ret (failure e "Restore failed")).

Definition getCustomerInfo : M (option CustomerInfo) :=
  try_catch
    (if negb isInitialized || negb isNativePlatform then ret None
     else
       emit (SdkCall "Purchases.getCustomerInfo") ;;
       info <- await (Purchases_getCustomerInfo sdk) ;;
       ret (Some info))
    (fun _ =>
       console_error "RevenueCat: Failed to get customer info" ;;
       ret None).

Definition getActiveSubscription : M (option ActiveSubscription) :=
  try_catch
    (info <- getCustomerInfo ;;
     match info with
     | None => ret None
     | Some customerInfo =>
         match get_entry (entitlements_active customerInfo) ENTITLEMENTS_PREMIUM with
         | Some premiumEntitlement =>
             if ent_isActive premiumEntitlement then
               ret (Some
                 {| productId := productIdentifier premiumEntitlement;
                    isActive := true;
                    renewalDate :=
                      if willRenew premiumEntitlement
                      then Some (ent_expirationDate premiumEntitlement)
                      else None;
                    expirationDate := ent_expirationDate premiumEntitlement;
                    originalTransactionId :=
                      match originalPurchaseDate customerInfo with
                      | Some d =>
                          if (d =? "")%string then None
                          else Some (originalAppUserId customerInfo)
                      | None => None
                      end;
                    entitlements := entitlements_active customerInfo |})
             else ret None
         | None => ret None
         end
     end)
    (fun _ =>
       console_error "RevenueCat: Failed to get active subscription" ;;
       ret None).

End Service.

End PurchasesService.

(* ================================================================== *)
(** * hooks/usePurchases.ts *)
(* ================================================================== *)

Module UsePurchases.
Import Js Effect.
Local Open Scope effect_scope.

(** The [useState] cells of the hook that the purchase flow reads or
    writes. *)
Record HookState : Type := mkHookState {
  isInitialized : bool;
  isLoading : bool;
  activeSubscription : option ActiveSubscription
}.

(** The state updates requested along a trace, applied in order. *)
Definition apply_event (st : HookState) (e : event) : HookState :=
  match e with
  | SetIsLoading b =>
      {| isInitialized := isInitialized st;
         isLoading := b;
         activeSubscription := activeSubscription st |}
  | SetActiveSubscription a =>
      {| isInitialized := isInitialized st;
         isLoading := isLoading st;
         activeSubscription := a |}
  | _ => st
  end.

Definition state_after (st : HookState) (tr : list event) : HookState :=
  fold_left apply_event tr st.

(** [const hasPremium = activeSubscription?.isActive || false] *)
Definition hasPremium (st : HookState) : value :=
  (match activeSubscription st with
   | Some a => VBool (isActive a)
   | None => VUndefined
   end || VBool false)%js.

(** The methods of [purchasesService] the hook calls. *)
Record Service : Type := mkService {
  service_purchaseProduct : string -> M PurchasesService.PurchaseResult;
  service_restorePurchases : M PurchasesService.PurchaseResult;
  service_getActiveSubscription : M (option ActiveSubscription)
}.

(** [purchasesService] itself, over a provider SDK. *)
Definition purchasesService (native initialized : bool)
           (sdk : PurchasesService.Sdk) : Service :=
  {| service_purchaseProduct :=
       PurchasesService.purchaseProduct native initialized sdk;
     service_restorePurchases :=
       PurchasesService.restorePurchases native initialized sdk;
     service_getActiveSubscription :=
       PurchasesService.getActiveSubscription native initialized sdk |}.

Section Hook.

(** [Capacitor.isNativePlatform()] *)
Variable isNativePlatform : bool.

Variable service : Service.

(** How the [POST /api/revenuecat/verify] request settles. *)
Variable verify_outcome : Thrown + unit.

(** The state of the render whose closures run. *)
Variable st : HookState.

Definition setIsLoading (b : bool) : M unit := emit (SetIsLoading b).

Definition setActiveSubscription (a : option ActiveSubscription) : M unit :=
  emit (SetActiveSubscription a).

Definition verifyWithBackend : M unit :=
  try_catch
    (if negb isNativePlatform then ret tt
     else
       console_log "Requesting server-side RevenueCat verification..." ;;
       apiRequest "POST" "/api/revenuecat/verify" [] verify_outcome ;;
       console_log "RevenueCat subscription verified by server" ;;
       emit (SetTimeout 1000 "subscription-status-changed"))
    (fun _ =>
       console_error "Failed to verify with backend:").

Definition purchaseProduct (productId : string) : M bool :=
  try_finally
    (try_catch
       ((if negb (isInitialized st) || negb isNativePlatform
         then throw (new_Error "Purchases not available on this platform")
         else ret tt) ;;
        setIsLoading true ;;
        result <- service_purchaseProduct service productId ;;
        match PurchasesService.success result,
              PurchasesService.customerInfo result with
        | true, Some _ =>
            activeSubscription <- service_getActiveSubscription service ;;
            setActiveSubscription activeSubscription ;;
            verifyWithBackend ;;
            toast {| title := "Purchase Successful!";
                     description :=
                       "Welcome to Premium! Your subscription is now active.";
                     variant := None |} ;;
            ret true
        | _, _ =>
            match PurchasesService.error result with
            | Some error =>
                if (PurchasesService.err_code error =? "PURCHASE_CANCELLED")%string
                then ret false
                else
                  toast {| title := "Purchase Failed";
                           description := PurchasesService.err_message error;
                           variant := Some "destructive" |} ;;
                  ret false
            | None => ret false
            end
        end)
       (fun error =>
          console_error "Purchase failed:" ;;
          toast {| title := "Purchase Error";
                   description :=
                     or_default (message error)
                                "Purchase failed. Please try again.";
                   variant := Some "destructive" |} ;;
          ret false))
    (setIsLoading false).

Definition restorePurchases : M bool :=
  try_finally
    (try_catch
       ((if negb (isInitialized st) || negb isNativePlatform
         then throw (new_Error "Purchases not available on this platform")
         else ret tt) ;;
        setIsLoading true ;;
        result <- service_restorePurchases service ;;
        match PurchasesService.success result,
              PurchasesService.customerInfo result with
        | true, Some _ =>
            activeSubscription <- service_getActiveSubscription service ;;
            setActiveSubscription activeSubscription ;;
            verifyWithBackend ;;
            (if match activeSubscription with
                | Some a => isActive a
                | None => false
                end
             then toast {| title := "Purchases Restored!";
                           description :=
                             "Your Premium subscription has been restored.";
                           variant := None |}
             else toast {| title := "No Purchases Found";
                           description :=
                             "No active subscriptions found to restore.";
                           variant := None |}) ;;
            ret true
        | _, _ =>
            match PurchasesService.error result with
            | Some error =>
                toast {| title := "Restore Failed";
                         description := PurchasesService.err_message error;
                         variant := Some "destructive" |} ;;
                ret false
            | None => ret false
            end
        end)
       (fun error =>
          console_error "Restore failed:" ;;
          toast {| title := "Restore Error";
                   description :=
                     or_default (message error) "Failed to restore purchases.";
                   variant := Some "destructive" |} ;;
          ret false))
    (setIsLoading false).

End Hook.

(** The toasts of [purchaseProduct] and [restorePurchases], by name. *)
Definition purchase_successful : Toast :=
  {| title := "Purchase Successful!";
     description := "Welcome to Premium! Your subscription is now active.";
     variant := None |}.

Definition purchase_failed (msg : string) : Toast :=
  {| title := "Purchase Failed";
     description := msg;
     variant := Some "destructive" |}.

Definition purchases_restored : Toast :=
  {| title := "Purchases Restored!";
     description := "Your Premium subscription has been restored.";
     variant := None |}.

Definition no_purchases_found : Toast :=
  {| title := "No Purchases Found";
     description := "No active subscriptions found to restore.";
     variant := None |}.

(** What [verifyWithBackend] leaves in the trace on a native platform,
    by the settlement of its request. *)
Definition verify_trace (verify_outcome : Thrown + unit) : list event :=
  [ConsoleLog "Requesting server-side RevenueCat verification...";
   ApiRequest "POST" "/api/revenuecat/verify" []]
  ++ match verify_outcome with
     | inr _ =>
         [ApiSettled "/api/revenuecat/verify" true;
          ConsoleLog "RevenueCat subscription verified by server";
          SetTimeout 1000 "subscription-status-changed"]
     | inl _ =>
         [ApiSettled "/api/revenuecat/verify" false;
          ConsoleError "Failed to verify with backend:"]
     end.

End UsePurchases.

(* ================================================================== *)
(** * hooks/useHouseholdSubscription *)
(* ================================================================== *)

Module UseHouseholdSubscription.
Import Js.

Record PremiumUser : Type := mkPremiumUser {
  pu_id : string;
  pu_firstName : option string;
  pu_lastName : option string;
  pu_email : option string;
  pu_subscriptionProvider : option string
}.

Record Household : Type := mkHousehold {
  hh_id : string;
  hh_name : string
}.

(** [interface HouseholdSubscriptionStatus], the data of the
    [/api/household/subscription] query. *)
Record HouseholdSubscriptionStatus : Type := mkHouseholdStatus {
  hs_hasPremium : bool;
  hs_subscriptionProvider : option string;
  hs_premiumUser : option PremiumUser;
  hs_household : option Household
}.

(** The fields of [user] the hook reads. *)
Record User : Type := mkUser {
  subscriptionPlan : option string;
  user_subscriptionProvider : option string
}.

(** What the hook returns. *)
Record Result : Type := mkResult {
  householdStatus : option HouseholdSubscriptionStatus;
  isLoading : value;
  hasPremium : value;
  subscriptionProvider : value;
  premiumUser : option PremiumUser;
  household : option Household;
  isNativePlatform : bool;
  mobileHasPremium : value;
  canAccessFeature : SubscriptionUtils.LimitsKey -> value
}.

Section Hook.

(** [data] and [isLoading] of the household query; [data] is undefined
    while the query has not succeeded. *)
Variable householdStatus_ : option HouseholdSubscriptionStatus.
Variable householdLoading : bool.

(** The state of the [usePurchases()] hook the reconciler reads. *)
Variable purchases : UsePurchases.HookState.

(** [Capacitor.isNativePlatform()] *)
Variable isNativePlatform_ : bool.

(** [user] of [useAuth()]. *)
Variable user : option User.

(** [hasPremium] and [isLoading] of [usePurchases()]. *)
Definition mobileHasPremium_ : value := UsePurchases.hasPremium purchases.
Definition mobileLoading : bool := UsePurchases.isLoading purchases.

(** [user?.subscriptionPlan === 'premium'] *)
Definition userIsPremium : bool :=
  match user with
  | Some u => strict_eq_lit (subscriptionPlan u) "premium"
  | None => false
  end.

(** [householdStatus?.hasPremium] *)
Definition householdStatus_hasPremium : value :=
  match householdStatus_ with
  | Some hs => VBool (hs_hasPremium hs)
  | None => VUndefined
  end.

(** [householdStatus?.subscriptionProvider] *)
Definition householdStatus_subscriptionProvider : value :=
  match householdStatus_ with
  | Some hs => of_opt_string (hs_subscriptionProvider hs)
  | None => VUndefined
  end.

(** [user?.subscriptionProvider] *)
Definition user_provider : value :=
  match user with
  | Some u => of_opt_string (user_subscriptionProvider u)
  | None => VUndefined
  end.

Definition computedHasPremium : value :=
  (householdStatus_hasPremium
   || (VBool isNativePlatform_ && mobileHasPremium_)
   || VBool userIsPremium)%js.

(** [const subscriptionProvider = ...] *)
Definition computedSubscriptionProvider : value :=
  (householdStatus_subscriptionProvider
   || cond (VBool isNativePlatform_ && mobileHasPremium_)
           (VStr "revenuecat") (VStr "stripe")
   || user_provider
   || VStr "stripe")%js.

Definition useHouseholdSubscription : Result :=
  {| householdStatus := householdStatus_;
     isLoading :=
       (VBool householdLoading
        || (VBool isNativePlatform_ && VBool mobileLoading))%js;
     hasPremium := computedHasPremium;
     subscriptionProvider := computedSubscriptionProvider;
     premiumUser :=
       match householdStatus_ with
       | Some hs => hs_premiumUser hs
       | None => None
       end;
     household :=
       match householdStatus_ with
       | Some hs => hs_household hs
       | None => None
       end;
     isNativePlatform := isNativePlatform_;
     mobileHasPremium :=
       if isNativePlatform_ then mobileHasPremium_ else VBool false;
     canAccessFeature := fun feature =>
       SubscriptionUtils.canHouseholdAccessFeature computedHasPremium feature |}.

End Hook.

End UseHouseholdSubscription.

(* ================================================================== *)
(** * pages/Pricing.tsx: handleUpgrade *)
(* ================================================================== *)

Module Pricing.
Import Js Effect.
Local Open Scope effect_scope.

(** The parsed body of the checkout-session response. *)
Record CheckoutData : Type := mkCheckoutData { url : option string }.

Section HandleUpgrade.

(** [String.prototype.trim] *)
Variable trim : string -> string.

(** [Capacitor.isNativePlatform()] *)
Variable isNativePlatform : bool.

(** The [couponCode] state of the render. *)
Variable couponCode : string.

(** How [apiRequest(...)] and then [response.json()] settle. *)
Variable checkout_outcome : Thrown + (Thrown + CheckoutData).

Definition handleUpgrade (useCoupon : bool) : M unit :=
  try_catch
    (if isNativePlatform then
       toast {| title := "Not Available";
                description :=
                  "Web subscriptions are not available in the mobile app. Please use the in-app purchase options.";
                variant := Some "destructive" |}
     else
       emit (SetIsLoading true) ;;
       let requestBody :=
         if useCoupon && truthy (VStr (trim couponCode))
         then [("couponCode", trim couponCode)]
         else [] in
       response <- apiRequest "POST" "/api/create-checkout-session"
                              requestBody checkout_outcome ;;
       data <- await response ;;
       match url data with
       | Some u =>
           if truthy (VStr u) then emit (FormSubmit u)
           else throw (new_Error "No checkout URL received")
       | None => throw (new_Error "No checkout URL received")
       end)
    (fun error =>
       toast {| title := "Checkout Error";
                description :=
                  if is_Error error
                  then or_default (message error) ""
                  else "Failed to start checkout process";
                variant := Some "destructive" |} ;;
       emit (SetIsLoading false)).

(** [handleCouponUpgrade]: closes the dialog and upgrades with the
    coupon. *)
Definition handleCouponUpgrade : M unit := handleUpgrade true.

End HandleUpgrade.

(** The toast of the native branch of [handleUpgrade], by name. *)
Definition not_available : Toast :=
  {| title := "Not Available";
     description :=
       "Web subscriptions are not available in the mobile app. Please use the in-app purchase options.";
     variant := Some "destructive" |}.

End Pricing.

(* ================================================================== *)
(** * Concrete provider behaviours used in the examples *)
(* ================================================================== *)

Module Scenario.
Import Effect PurchasesService.

Definition monthly : string := "my_branches_premium_monthly".

Definition monthly_package : PurchasesPackage :=
  {| product := Some {| identifier := monthly |} |}.

Definition current_offering : PurchasesOffering :=
  {| availablePackages := Some [monthly_package] |}.

Definition premium_entitlement : EntitlementInfo :=
  {| ent_isActive := true;
     productIdentifier := monthly;
     willRenew := true;
     ent_expirationDate := Some "2031-01-01T00:00:00Z" |}.

Definition premium_customer : CustomerInfo :=
  {| entitlements_active := [("premium", premium_entitlement)];
     originalPurchaseDate := Some "2030-01-01T00:00:00Z";
     originalAppUserId := "user-1" |}.

(** The provider accepts the purchase and reports the entitlement. *)
Definition sdk_purchase_accepted : Sdk :=
  {| Purchases_getOfferings := inr (Some current_offering);
     Purchases_purchasePackage := fun _ => inr premium_customer;
     Purchases_restorePurchases := inr premium_customer;
     Purchases_getCustomerInfo := inr premium_customer |}.

Definition customer_without_entitlement : CustomerInfo :=
  {| entitlements_active := [];
     originalPurchaseDate := None;
     originalAppUserId := "user-1" |}.

(** The user dismisses the purchase sheet. *)
Definition sdk_purchase_cancelled : Sdk :=
  {| Purchases_getOfferings := inr (Some current_offering);
     Purchases_purchasePackage := fun _ =>
       inl {| is_Error := false;
              message := Some "Purchase was cancelled";
              code := Some "PURCHASE_CANCELLED" |};
     Purchases_restorePurchases := inr customer_without_entitlement;
     Purchases_getCustomerInfo := inr customer_without_entitlement |}.

(** The store refuses the payment. *)
Definition sdk_purchase_refused : Sdk :=
  {| Purchases_getOfferings := inr (Some current_offering);
     Purchases_purchasePackage := fun _ =>
       inl {| is_Error := false;
              message := Some "Payment declined";
              code := Some "STORE_PROBLEM" |};
     Purchases_restorePurchases := inr customer_without_entitlement;
     Purchases_getCustomerInfo := inr customer_without_entitlement |}.

(** The server does not confirm the purchase. *)
Definition verification_rejected : Thrown + unit :=
  inl (new_Error "500: Internal Server Error").

(** The hook after initialisation, before any purchase. *)
Definition ready : UsePurchases.HookState :=
  {| UsePurchases.isInitialized := true;
     UsePurchases.isLoading := false;
     UsePurchases.activeSubscription := None |}.

(** A household status without premium. *)
Definition household_basic
  : UseHouseholdSubscription.HouseholdSubscriptionStatus :=
  {| UseHouseholdSubscription.hs_hasPremium := false;
     UseHouseholdSubscription.hs_subscriptionProvider := None;
     UseHouseholdSubscription.hs_premiumUser := None;
     UseHouseholdSubscription.hs_household := None |}.

End Scenario.



(* ================================================================== *)
(** * subscription-utils.ts: display information *)
(* ================================================================== *)

Module SubscriptionDisplay.
Import SubscriptionUtils.

(** The object [getSubscriptionDisplayInfo] returns. *)
Record DisplayInfo : Type := mkDisplayInfo {
  providerName : string;
  managementInstructions : string;
  upgradeInstructions : string
}.

Definition getSubscriptionDisplayInfo (provider : option string)
  : DisplayInfo :=
  if isRevenueCatSubscription provider then
    {| providerName := "Mobile App Store";
       managementInstructions :=
         "Manage your subscription in your device settings or the app store where you purchased it.";
       upgradeInstructions :=
         "Upgrade through the app on your mobile device for the best experience." |}
  else
    {| providerName := "Web Payment";
       managementInstructions :=
         "Manage your subscription through our web portal.";
       upgradeInstructions := "Upgrade on our website or mobile app." |}.

End SubscriptionDisplay.

(* ================================================================== *)
(** * services/purchases.ts: life cycle of the singleton *)
(* ================================================================== *)

Module PurchasesLifecycle.
Import Js Effect.
Local Open Scope effect_scope.

Section Lifecycle.

(** [Capacitor.isNativePlatform()] and [Capacitor.getPlatform()] *)
Variable isNativePlatform : bool.
Variable platform : string.

(** The two API keys, each the empty string when not configured. *)
Variable REVENUECAT_API_KEY_APPLE : string.
Variable REVENUECAT_API_KEY_GOOGLE : string.

(** [this.isInitialized] when the method is called. *)
Variable isInitialized : bool.

(** How [Purchases.setLogLevel], [Purchases.configure], [Purchases.logIn]
    and [Purchases.logOut] settle. *)
Variable setLogLevel_outcome : Thrown + unit.
Variable configure_outcome : Thrown + unit.
Variable logIn_outcome : Thrown + unit.
Variable logOut_outcome : Thrown + unit.

(** The key chosen for the platform. *)
Definition apiKey : string :=
  if (platform =? "ios")%string then REVENUECAT_API_KEY_APPLE
  else if (platform =? "android")%string then REVENUECAT_API_KEY_GOOGLE
  else "".

(** [initialize()].  The computation resolves to the value of
    [this.isInitialized] when it completes; the field is assigned only
    after both SDK calls, so a rejection leaves it as it was. *)
Definition initialize : M bool :=
  try_catch
    (if isInitialized then ret isInitialized
     else if negb isNativePlatform then
       console_log
         "RevenueCat: Not running on native platform, skipping initialization" ;;
       ret isInitialized
     else
       if negb (truthy (VStr apiKey)) then
         throw (new_Error
                  ("RevenueCat API key not configured for platform: "
                   ++ platform)%string)
       else
         emit (SdkCall "Purchases.setLogLevel") ;;
         await setLogLevel_outcome ;;
         emit (SdkCall "Purchases.configure") ;;
         await configure_outcome ;;
         console_log "RevenueCat: Successfully initialized" ;;
         ret true)
    (fun error =>
       console_error "RevenueCat: Failed to initialize" ;;
       throw error).

Definition setUserId (userId : string) : M unit :=
  try_catch
    (if negb isInitialized || negb isNativePlatform then ret tt
     else
       emit (SdkCall "Purchases.logIn") ;;
       await logIn_outcome ;;
       console_log ("RevenueCat: User ID set to " ++ userId)%string)
    (fun error =>
       console_error "RevenueCat: Failed to set user ID" ;;
       throw error).

Definition logout : M unit :=
  try_catch
    (if negb isInitialized || negb isNativePlatform then ret tt
     else
       emit (SdkCall "Purchases.logOut") ;;
       await logOut_outcome ;;
       console_log "RevenueCat: User logged out")
    (fun _ =>
       console_error "RevenueCat: Failed to logout").

Definition isAvailable : bool := isNativePlatform && isInitialized.

Variable sdk : PurchasesService.Sdk.

Definition hasPremiumEntitlement : M bool :=
  try_catch
    (activeSubscription <-
       PurchasesService.getActiveSubscription isNativePlatform isInitialized sdk ;;
     ret (match activeSubscription with
          | Some sub => isActive sub || false
          | None => false
          end))
    (fun _ =>
       console_error "RevenueCat: Failed to check premium entitlement" ;;
       ret false).

End Lifecycle.

End PurchasesLifecycle.

(* ================================================================== *)
(** * pages/Pricing.tsx: the mobile handlers and the derived values *)
(* ================================================================== *)

Module PricingHandlers.
Import Js Effect.
Local Open Scope effect_scope.

(** The toast shown while the purchases hook is not initialised. *)
Definition not_ready : Toast :=
  {| title := "Not Ready";
     description :=
       "Purchase system is still initializing. Please wait a moment.";
     variant := Some "destructive" |}.

Section Handlers.

(** [Capacitor.isNativePlatform()] *)
Variable isNativePlatform : bool.

Variable service : UsePurchases.Service.

Variable verify_outcome : Thrown + unit.

(** The state of the page's [usePurchases()] hook;
    [purchasesInitialized] is its [isInitialized]. *)
Variable purchases : UsePurchases.HookState.

(** [handleMobilePurchase]: [None] is the [undefined] of the early
    return. *)
Definition handleMobilePurchase (productId : string) : M (option bool) :=
  if negb (UsePurchases.isInitialized purchases) then
    toast not_ready ;;
    ret None
  else
    success <- UsePurchases.purchaseProduct isNativePlatform service
                 verify_outcome purchases productId ;;
    ret (Some success).

Definition handleRestorePurchases : M (option bool) :=
  if negb (UsePurchases.isInitialized purchases) then
    toast not_ready ;;
    ret None
  else
    success <- UsePurchases.restorePurchases isNativePlatform service
                 verify_outcome purchases ;;
    ret (Some success).

End Handlers.

(** [const currentPlan = hasPremium ? 'premium' : 'basic'] *)
Definition currentPlan (hasPremium : value) : SubscriptionUtils.SubscriptionPlan :=
  if truthy hasPremium then SubscriptionUtils.premium
  else SubscriptionUtils.basic.

(** The reconciler's label as the [provider?: string] argument. *)
Definition provider_argument (subscriptionProvider : value) : option string :=
  match subscriptionProvider with
  | VStr s => Some s
  | _ => None
  end.

(** [const displayInfo = getSubscriptionDisplayInfo(subscriptionProvider)] *)
Definition displayInfo (subscriptionProvider : value)
  : SubscriptionDisplay.DisplayInfo :=
  SubscriptionDisplay.getSubscriptionDisplayInfo
    (provider_argument subscriptionProvider).

End PricingHandlers.

(* ================================================================== *)
(** * pages/Pricing.tsx: the two purchases hooks of the page *)
(* ================================================================== *)

Module PricingPage.
Import Js.

(** The page calls [useHouseholdSubscription()], which calls
    [usePurchases()] for itself, and then calls [usePurchases()] again for
    the purchase and restore methods it runs.  Each call owns its state:
    the reconciler reads the first hook, the flow writes the second. *)
Record Hooks : Type := mkHooks {
  reconciler_purchases : UsePurchases.HookState;
  page_purchases : UsePurchases.HookState
}.

(** The hooks after the state updates of a trace of the page's purchase or
    restore flow: the setters in the trace are those of the page's hook. *)
Definition after_run (hooks : Hooks) (tr : list Effect.event) : Hooks :=
  {| reconciler_purchases := reconciler_purchases hooks;
     page_purchases := UsePurchases.state_after (page_purchases hooks) tr |}.

Section Page.

Variable householdStatus :
  option UseHouseholdSubscription.HouseholdSubscriptionStatus.
Variable householdLoading : bool.
Variable isNativePlatform : bool.
Variable user : option UseHouseholdSubscription.User.

(** [const { hasPremium, ... } = useHouseholdSubscription()] *)
Definition hasPremium (hooks : Hooks) : value :=
  UseHouseholdSubscription.hasPremium
    (UseHouseholdSubscription.useHouseholdSubscription
       householdStatus householdLoading (reconciler_purchases hooks)
       isNativePlatform user).

End Page.

End PricingPage.

(* ================================================================== *)
(** * Order of events in a trace *)
(* ================================================================== *)

Module TraceOrder.
Import Effect.

(** Reading the trace from its start: no event of [later] comes before
    the first event of [earlier]. *)
Fixpoint preceded_by (earlier later : event -> bool) (tr : list event)
  : bool :=
  match tr with
  | [] => true
  | e :: tr' =>
      if earlier e then true
      else if later e then false
      else preceded_by earlier later tr'
  end.

(** The provider call of the purchase or of the restore. *)
Definition is_provider_call (e : event) : bool :=
  match e with
  | SdkCall method =>
      (method =? "Purchases.purchasePackage")%string
      || (method =? "Purchases.restorePurchases")%string
  | _ => false
  end.

(** The verification request. *)
Definition is_verify_request (e : event) : bool :=
  match e with
  | ApiRequest method url _ =>
      (method =? "POST")%string && (url =? "/api/revenuecat/verify")%string
  | _ => false
  end.

(** The verification request has returned, fulfilled or rejected. *)
Definition is_verify_settled (e : event) : bool :=
  match e with
  | ApiSettled url _ => (url =? "/api/revenuecat/verify")%string
  | _ => false
  end.

(** The verification request has been fulfilled. *)
Definition is_verify_fulfilled (e : event) : bool :=
  match e with
  | ApiSettled url fulfilled =>
      (url =? "/api/revenuecat/verify")%string && fulfilled
  | _ => false
  end.

(** The refresh of the subscription status is scheduled. *)
Definition is_refresh (e : event) : bool :=
  match e with
  | SetTimeout _ dispatched =>
      (dispatched =? "subscription-status-changed")%string
  | _ => false
  end.

(** A toast that is not an error: the flow announces its result. *)
Definition is_announcement (e : event) : bool :=
  match e with
  | ToastShown t =>
      match variant t with
      | None => true
      | Some _ => false
      end
  | _ => false
  end.

End TraceOrder.

(* ================================================================== *)
(** * Further concrete behaviours used in the examples *)
(* ================================================================== *)

Module Examples.
Import Effect PurchasesService.

Definition annual : string := "my_branches_premium_annual".

Definition annual_package : PurchasesPackage :=
  {| product := Some {| identifier := annual |} |}.

(** An offering whose first package has no product. *)
Definition mixed_offering : PurchasesOffering :=
  {| availablePackages :=
       Some [ {| product := None |}; annual_package; Scenario.monthly_package ] |}.

(** The hook before initialisation. *)
Definition starting : UsePurchases.HookState :=
  {| UsePurchases.isInitialized := false;
     UsePurchases.isLoading := false;
     UsePurchases.activeSubscription := None |}.

End Examples.

(* ================================================================== *)
(** * Properties of the plan catalog and the limit evaluator *)
(* ================================================================== *)

Import Js SubscriptionUtils Effect.

Section CatalogFacts.

(** C8. [getPlanLimits] is defined on both plans and returns the catalog
    values: basic has maxGroups 0, maxEventsPerMonth 0, maxMembersPerGroup
    -1, no advanced features, chat and task management, no event planning
    and no mailing labels; premium has the three limits at -1 and the five
    flags set. *)
Theorem getPlanLimits_catalog :
  (maxGroups (getPlanLimits basic) = 0
   /\ maxEventsPerMonth (getPlanLimits basic) = 0
   /\ maxMembersPerGroup (getPlanLimits basic) = -1
   /\ canUseAdvancedFeatures (getPlanLimits basic) = false
   /\ hasRealTimeChat (getPlanLimits basic) = true
   /\ hasTaskManagement (getPlanLimits basic) = true
   /\ hasEventPlanning (getPlanLimits basic) = false
   /\ hasMailingLabels (getPlanLimits basic) = false)
  /\ (maxGroups (getPlanLimits premium) = -1
      /\ maxEventsPerMonth (getPlanLimits premium) = -1
      /\ maxMembersPerGroup (getPlanLimits premium) = -1
      /\ canUseAdvancedFeatures (getPlanLimits premium) = true
      /\ hasRealTimeChat (getPlanLimits premium) = true
      /\ hasTaskManagement (getPlanLimits premium) = true
      /\ hasEventPlanning (getPlanLimits premium) = true
      /\ hasMailingLabels (getPlanLimits premium) = true)
  /\ (forall plan : SubscriptionPlan,
         getPlanLimits plan = getPlanLimits basic
         \/ getPlanLimits plan = getPlanLimits premium).
Proof.
  split; [| split].
  - repeat split.
  - repeat split.
  - intros []; [left | right]; reflexivity.
Qed.

Lemma hasReachedLimit_unlimited (count : Z) :
  hasReachedLimit count (-1) = false.
Proof. reflexivity. Qed.

Lemma hasReachedLimit_limited (count limit : Z) :
  limit <> -1 -> hasReachedLimit count limit = (count >=? limit).
Proof.
  intros Hl. unfold hasReachedLimit.
  destruct (Z.eqb_spec limit (-1)) as [E | _]; [contradiction | reflexivity].
Qed.

(** C7. For all integers, [hasReachedLimit count limit] is false when the
    limit is -1, whatever the count, and is [count >= limit] otherwise; a
    negative count has not reached a positive limit. *)
Theorem hasReachedLimit_spec (count limit : Z) :
  (limit = -1 -> hasReachedLimit count limit = false)
  /\ (limit <> -1 -> hasReachedLimit count limit = (count >=? limit))
  /\ (count < 0 -> 0 < limit -> hasReachedLimit count limit = false).
Proof.
  split; [| split].
  - intros ->. apply hasReachedLimit_unlimited.
  - apply hasReachedLimit_limited.
  - intros Hc Hl. rewrite hasReachedLimit_limited by lia.
    rewrite Z.geb_leb. apply Z.leb_gt. lia.
Qed.

Lemma hasReachedLimit_spec_witness :
  hasReachedLimit (-7) (-1) = false
  /\ hasReachedLimit 5 5 = (5 >=? 5)
  /\ hasReachedLimit (-2) 3 = false.
Proof.
  split; [| split].
  - apply (proj1 (hasReachedLimit_spec (-7) (-1))). reflexivity.
  - apply (proj1 (proj2 (hasReachedLimit_spec 5 5))). lia.
  - apply (proj2 (proj2 (hasReachedLimit_spec (-2) 3))); lia.
Defined.

(** C10, the claim against the code: with the key [maxGroups] the function,
    declared to return a boolean, should return [true] for premium and
    [false] for basic.  It returns neither. *)
Lemma canUserAccessFeature_maxGroups_not_boolean :
  ~ (canUserAccessFeature premium key_maxGroups = VBool true
     /\ canUserAccessFeature basic key_maxGroups = VBool false).
Proof. intros [H _]. discriminate H. Qed.

(** C10, evaluated. [canUserAccessFeature] is defined on every plan and
    every key, but on a numeric key what comes out is the stored number
    itself and not the boolean its signature and its [as boolean] promise:
    -1 for [('premium', 'maxGroups')], which is only truthy, and 0 for
    [('basic', 'maxGroups')], which is only falsy. *)
Theorem canUserAccessFeature_numeric_key :
  (forall plan, canUserAccessFeature plan key_maxGroups
                = VNum (maxGroups (getPlanLimits plan)))
  /\ (forall plan, canUserAccessFeature plan key_maxEventsPerMonth
                   = VNum (maxEventsPerMonth (getPlanLimits plan)))
  /\ (forall plan, canUserAccessFeature plan key_maxMembersPerGroup
                   = VNum (maxMembersPerGroup (getPlanLimits plan)))
  /\ canUserAccessFeature premium key_maxGroups = VNum (-1)
  /\ truthy (canUserAccessFeature premium key_maxGroups) = true
  /\ canUserAccessFeature basic key_maxGroups = VNum 0
  /\ truthy (canUserAccessFeature basic key_maxGroups) = false.
Proof. repeat split. Qed.

End CatalogFacts.

(* ================================================================== *)
(** * Properties of [hasActiveSubscription] *)
(* ================================================================== *)

Section ActiveSubscriptionFacts.

Variable Date_parse : string -> option Z.
Variable now : Z.

Lemma strict_eq_lit_true (o : option string) (lit : string) :
  strict_eq_lit o lit = true <-> o = Some lit.
Proof.
  destruct o as [s |]; simpl.
  - rewrite String.eqb_eq. split; congruence.
  - split; discriminate.
Qed.

(** The expiry test lets a supplied end date through when it is falsy,
    when it is not a valid date, or when it lies strictly in the future. *)
Lemma expiry_test_cases (e : EndsAt) :
  (if endsAt_truthy e
   then negb (date_le (new_Date Date_parse e) (Some now))
   else true) = true
  <-> endsAt_truthy e = false
      \/ new_Date Date_parse e = None
      \/ exists t, new_Date Date_parse e = Some t /\ now < t.
Proof.
  destruct (endsAt_truthy e); simpl.
  - destruct (new_Date Date_parse e) as [t |]; simpl.
    + rewrite negb_true_iff, Z.leb_gt. split.
      * intros H. right. right. exists t. auto.
      * intros [H | [H | [t' [H1 H2]]]]; try discriminate.
        injection H1 as <-. exact H2.
    + split; auto.
  - split; auto.
Qed.

Lemma hasActiveSubscription_unfold plan status endsAt provider :
  hasActiveSubscription Date_parse now plan status endsAt provider
  = strict_eq_lit plan "premium"
    && strict_eq_lit status "active"
    && match endsAt with
       | Some e =>
           if endsAt_truthy e
           then negb (date_le (new_Date Date_parse e) (Some now))
           else true
       | None => true
       end.
Proof.
  unfold hasActiveSubscription.
  destruct (strict_eq_lit plan "premium"); simpl; [| reflexivity].
  destruct (strict_eq_lit status "active"); simpl; [| reflexivity].
  destruct endsAt as [e |]; [| reflexivity].
  destruct (endsAt_truthy e); [| reflexivity].
  destruct (date_le (new_Date Date_parse e) (Some now)); reflexivity.
Qed.

(** C6, amended. On every input whose end date, when supplied, is a
    non-empty value denoting a valid date, [hasActiveSubscription] returns
    true exactly when the plan is ['premium'], the status is ['active']
    and the end date is absent or strictly later than the current time.
    An end date equal to the current time yields false, and the provider
    argument has no influence. *)
Theorem hasActiveSubscription_spec plan status endsAt provider :
  (forall e, endsAt = Some e ->
             endsAt_truthy e = true
             /\ exists t, new_Date Date_parse e = Some t) ->
  (hasActiveSubscription Date_parse now plan status endsAt provider = true
   <-> plan = Some "premium"
       /\ status = Some "active"
       /\ (endsAt = None
           \/ exists e t, endsAt = Some e
                /\ new_Date Date_parse e = Some t /\ now < t))
  /\ (forall e, endsAt = Some e -> new_Date Date_parse e = Some now ->
        hasActiveSubscription Date_parse now plan status endsAt provider
        = false)
  /\ (forall provider',
        hasActiveSubscription Date_parse now plan status endsAt provider'
        = hasActiveSubscription Date_parse now plan status endsAt provider).
Proof.
  intros Hvalid.
  split; [| split].
  - rewrite hasActiveSubscription_unfold, !andb_true_iff.
    rewrite !strict_eq_lit_true.
    split.
    + intros [[Hp Hs] He]. repeat split; auto.
      destruct endsAt as [e |]; [right | left; reflexivity].
      destruct (Hvalid e eq_refl) as [Ht [t Hd]].
      apply expiry_test_cases in He.
      destruct He as [He | [He | [t' [He Hlt]]]]; try congruence.
      exists e, t'. auto.
    + intros (Hp & Hs & He). repeat split; auto.
      destruct He as [-> | (e & t & -> & Hd & Hlt)]; [reflexivity |].
      apply expiry_test_cases. right. right. exists t. auto.
  - intros e -> Hd. destruct (Hvalid e eq_refl) as [Ht _].
    rewrite hasActiveSubscription_unfold.
    rewrite Ht, Hd. simpl.
    rewrite Z.leb_refl. simpl. apply andb_false_r.
  - intros provider'. reflexivity.
Qed.

End ActiveSubscriptionFacts.

(** A valid, later end date keeps a premium, active subscription active;
    the same date taken as the current time expires it. *)
Lemma hasActiveSubscription_spec_witness :
  hasActiveSubscription (fun _ => None) 1000 (Some "premium") (Some "active")
    (Some (EndsAtDate (Some 2000))) (Some "stripe") = true
  /\ hasActiveSubscription (fun _ => None) 2000 (Some "premium") (Some "active")
       (Some (EndsAtDate (Some 2000))) (Some "stripe") = false.
Proof.
  assert (Hvalid : forall e, Some (EndsAtDate (Some 2000)) = Some e ->
                     endsAt_truthy e = true
                     /\ exists t, new_Date (fun _ => None) e = Some t).
  { intros e He. injection He as <-.
    split; [reflexivity | exists 2000; reflexivity]. }
  split.
  - apply (proj1 (hasActiveSubscription_spec (fun _ => None) 1000
                    (Some "premium") (Some "active")
                    (Some (EndsAtDate (Some 2000))) (Some "stripe") Hvalid)).
    split; [reflexivity | split; [reflexivity |]].
    right. exists (EndsAtDate (Some 2000)), 2000.
    split; [reflexivity | split; [reflexivity | lia]].
  - apply (proj1 (proj2 (hasActiveSubscription_spec (fun _ => None) 2000
                    (Some "premium") (Some "active")
                    (Some (EndsAtDate (Some 2000))) (Some "stripe") Hvalid))
             (EndsAtDate (Some 2000)));
      reflexivity.
Defined.

(** C6, as claimed: true exactly when the plan is premium, the status is
    active and the end date is absent or strictly later than the current
    time.  An end date that is an invalid [Date] is neither absent nor
    later than any time, and the function still answers true. *)
Lemma hasActiveSubscription_invalid_date_counterexample :
  ~ (hasActiveSubscription (fun _ => None) 1000
       (Some "premium") (Some "active") (Some (EndsAtDate None)) None = true
     <-> Some "premium" = Some "premium"
         /\ Some "active" = Some "active"
         /\ (Some (EndsAtDate None) = None
             \/ exists t,
                  new_Date (fun _ => None) (EndsAtDate None) = Some t
                  /\ 1000 < t)).
Proof.
  intros [H _].
  destruct (H eq_refl) as (_ & _ & [E | [t [E _]]]); discriminate E.
Qed.

(** An end date given as a non-empty string that [Date.parse] rejects is
    let through in the same way. *)
Lemma hasActiveSubscription_unparsable_string
      (Date_parse : string -> option Z) (now : Z) (s : string) provider :
  s <> "" -> Date_parse s = None ->
  hasActiveSubscription Date_parse now (Some "premium") (Some "active")
    (Some (EndsAtString s)) provider = true.
Proof.
  intros Hs Hp. rewrite hasActiveSubscription_unfold. simpl.
  apply String.eqb_neq in Hs. rewrite Hs, Hp. reflexivity.
Qed.

(** The empty string is falsy: the expiry test is skipped. *)
Lemma hasActiveSubscription_empty_string
      (Date_parse : string -> option Z) (now : Z) provider :
  hasActiveSubscription Date_parse now (Some "premium") (Some "active")
    (Some (EndsAtString "")) provider = true.
Proof. reflexivity. Qed.

(* ================================================================== *)
(** * Properties of the reconciler *)
(* ================================================================== *)

Section ReconcilerFacts.
Import UseHouseholdSubscription.

Lemma usePurchases_hasPremium_bool (st : UsePurchases.HookState) :
  UsePurchases.hasPremium st
  = VBool match UsePurchases.activeSubscription st with
          | Some a => isActive a
          | None => false
          end.
Proof.
  unfold UsePurchases.hasPremium.
  destruct (UsePurchases.activeSubscription st) as [a |]; [| reflexivity].
  unfold js_or; simpl. destruct (isActive a); reflexivity.
Qed.

Lemma computedHasPremium_bool hh (purchases : UsePurchases.HookState)
      (native : bool) user :
  computedHasPremium hh purchases native user
  = VBool (match hh with Some h => hs_hasPremium h | None => false end
           || (native
               && match UsePurchases.activeSubscription purchases with
                  | Some a => isActive a
                  | None => false
                  end)
           || userIsPremium user).
Proof.
  unfold computedHasPremium, mobileHasPremium_, householdStatus_hasPremium.
  rewrite usePurchases_hasPremium_bool.
  unfold js_or, js_and.
  destruct (match UsePurchases.activeSubscription purchases with
            | Some a => isActive a
            | None => false
            end) as [|].
  - destruct hh as [h |]; simpl.
    + destruct (hs_hasPremium h); simpl; [reflexivity |].
      destruct native; reflexivity.
    + destruct native; reflexivity.
  - destruct hh as [h |]; simpl.
    + destruct (hs_hasPremium h); simpl; [reflexivity |].
      destruct native; reflexivity.
    + destruct native; reflexivity.
Qed.

(** C1. For every household status (possibly undefined), platform flag,
    purchases state and user (possibly undefined), the decision
    [hasPremium] of the reconciler is the boolean
    household OR (native AND mobile) OR user-plan-is-premium, an undefined
    source counting as false.  Hence each source alone makes the decision
    premium, and with every source missing the decision is false. *)
Theorem reconciler_hasPremium_is_or
        (hh : option HouseholdSubscriptionStatus) (householdLoading : bool)
        (purchases : UsePurchases.HookState) (native : bool)
        (user : option User) :
  let decision :=
    hasPremium (useHouseholdSubscription hh householdLoading purchases
                  native user) in
  decision
  = VBool (match hh with Some h => hs_hasPremium h | None => false end
           || (native
               && match UsePurchases.activeSubscription purchases with
                  | Some a => isActive a
                  | None => false
                  end)
           || match user with
              | Some u => strict_eq_lit (subscriptionPlan u) "premium"
              | None => false
              end)
  /\ (forall h, hh = Some h -> hs_hasPremium h = true ->
                decision = VBool true)
  /\ (forall a, native = true ->
                UsePurchases.activeSubscription purchases = Some a ->
                isActive a = true ->
                decision = VBool true)
  /\ (forall u, user = Some u -> subscriptionPlan u = Some "premium" ->
                decision = VBool true)
  /\ (hh = None -> UsePurchases.activeSubscription purchases = None ->
      user = None -> decision = VBool false).
Proof.
  cbv zeta. simpl hasPremium.
  rewrite computedHasPremium_bool.
  unfold userIsPremium.
  split; [reflexivity |].
  split; [| split; [| split]].
  - intros h -> Hh. rewrite Hh. reflexivity.
  - intros a -> -> Ha. rewrite Ha. simpl.
    destruct hh as [h |]; [destruct (hs_hasPremium h) |]; reflexivity.
  - intros u -> Hu. rewrite Hu. simpl.
    rewrite orb_true_r. reflexivity.
  - intros -> -> ->. simpl. rewrite andb_false_r. reflexivity.
Qed.

Lemma reconciler_hasPremium_is_or_witness :
  hasPremium (useHouseholdSubscription
                (Some Scenario.household_basic) false Scenario.ready false
                (Some {| subscriptionPlan := Some "premium";
                         user_subscriptionProvider := None |}))
  = VBool true.
Proof.
  apply (proj1 (proj2 (proj2 (proj2 (reconciler_hasPremium_is_or
           (Some Scenario.household_basic) false Scenario.ready false
           (Some {| subscriptionPlan := Some "premium";
                    user_subscriptionProvider := None |})))))
         {| subscriptionPlan := Some "premium";
            user_subscriptionProvider := None |});
    reflexivity.
Defined.

(** When the household status supplies no provider, the label is decided
    by the platform term alone: the user's stored provider is never
    reached. *)
Lemma subscriptionProvider_without_household_provider
      hh (purchases : UsePurchases.HookState) (native : bool) user :
  truthy (householdStatus_subscriptionProvider hh) = false ->
  computedSubscriptionProvider hh purchases native user
  = if truthy (VBool native && mobileHasPremium_ purchases)%js
    then VStr "revenuecat" else VStr "stripe".
Proof.
  intros Hh. unfold computedSubscriptionProvider, js_or at 1 2 3, cond.
  rewrite Hh.
  destruct (truthy (VBool native && mobileHasPremium_ purchases)%js);
    reflexivity.
Qed.

(** C5, evaluated. Off a native platform, with a household status that
    has neither premium nor a provider and a user whose plan is premium
    and whose stored provider is ['revenuecat'], the decision is premium
    but the reported provider is ['stripe'], not the stored one. *)
Theorem subscriptionProvider_ignores_user_provider :
  let r :=
    useHouseholdSubscription
      (Some {| hs_hasPremium := false;
               hs_subscriptionProvider := None;
               hs_premiumUser := None;
               hs_household := None |})
      false
      {| UsePurchases.isInitialized := false;
         UsePurchases.isLoading := false;
         UsePurchases.activeSubscription := None |}
      false
      (Some {| subscriptionPlan := Some "premium";
               user_subscriptionProvider := Some "revenuecat" |}) in
  hasPremium r = VBool true
  /\ subscriptionProvider r = VStr "stripe"
  /\ subscriptionProvider r <> VStr "revenuecat".
Proof. cbv zeta. repeat split. discriminate. Qed.

End ReconcilerFacts.

(* ================================================================== *)
(** * Properties of the web checkout gate *)
(* ================================================================== *)

Section CheckoutGate.
Import Pricing.

Variable trim : string -> string.

Lemma requests_app (tr tr' : list event) :
  requests (tr ++ tr') = requests tr ++ requests tr'.
Proof.
  induction tr as [| e tr IH]; [reflexivity |].
  destruct e; simpl; rewrite IH; reflexivity.
Qed.

Lemma requests_none_in (tr : list event) :
  requests tr = [] -> forall method url body, ~ In (ApiRequest method url body) tr.
Proof.
  induction tr as [| e tr IH]; intros H method url body Hin; [exact Hin |].
  destruct Hin as [-> | Hin]; [discriminate H |].
  destruct e; simpl in H; try discriminate H; exact (IH H method url body Hin).
Qed.

(** C4. On a native platform every call of [handleUpgrade], with or
    without coupon and whatever the server would answer, does nothing but
    show the destructive "Not Available" toast and return: its trace holds
    no network request.  Off a native platform the same call does issue
    the [POST /api/create-checkout-session] request. *)
Theorem handleUpgrade_native_rejected
        (couponCode : string) (checkout_outcome : Thrown + (Thrown + CheckoutData))
        (useCoupon : bool) :
  handleUpgrade trim true couponCode checkout_outcome useCoupon
  = ([ToastShown not_available], Return tt)
  /\ requests (trace (handleUpgrade trim true couponCode checkout_outcome
                        useCoupon)) = []
  /\ (forall method url body,
        ~ In (ApiRequest method url body)
             (trace (handleUpgrade trim true couponCode checkout_outcome
                       useCoupon)))
  /\ requests (trace (handleUpgrade trim false couponCode checkout_outcome
                        useCoupon))
     = [("POST", "/api/create-checkout-session")].
Proof.
  assert (Hn : handleUpgrade trim true couponCode checkout_outcome useCoupon
               = ([ToastShown not_available], Return tt)) by reflexivity.
  split; [exact Hn |].
  split; [rewrite Hn; reflexivity |].
  split; [apply requests_none_in; rewrite Hn; reflexivity |].
  unfold handleUpgrade.
  destruct checkout_outcome as [e | [e | [[u |]]]]; simpl;
    try reflexivity.
  destruct (negb (u =? "")%string); reflexivity.
Qed.

End CheckoutGate.

(* ================================================================== *)
(** * Properties of the purchase flow *)
(* ================================================================== *)

Section TraceFacts.

Lemma toasts_app (tr tr' : list event) :
  toasts (tr ++ tr') = toasts tr ++ toasts tr'.
Proof.
  induction tr as [| e tr IH]; [reflexivity |].
  destruct e; simpl; rewrite IH; reflexivity.
Qed.

Lemma quiet_toasts (tr : list event) :
  forallb quiet tr = true -> toasts tr = [].
Proof.
  induction tr as [| e tr IH]; [reflexivity |].
  simpl. intros H. apply andb_true_iff in H as [He Htr].
  destruct e; try discriminate He; simpl; auto.
Qed.

Lemma quiet_requests (tr : list event) :
  forallb quiet tr = true -> requests tr = [].
Proof.
  induction tr as [| e tr IH]; [reflexivity |].
  simpl. intros H. apply andb_true_iff in H as [He Htr].
  destruct e; try discriminate He; simpl; auto.
Qed.

Lemma state_after_app st (tr tr' : list event) :
  UsePurchases.state_after st (tr ++ tr')
  = UsePurchases.state_after (UsePurchases.state_after st tr) tr'.
Proof. apply fold_left_app. Qed.

Lemma quiet_state_after st (tr : list event) :
  forallb quiet tr = true -> UsePurchases.state_after st tr = st.
Proof.
  revert st. induction tr as [| e tr IH]; intros st; [reflexivity |].
  simpl. intros H. apply andb_true_iff in H as [He Htr].
  unfold UsePurchases.state_after in *. simpl.
  destruct e; try discriminate He; simpl; auto.
Qed.

Lemma verifyWithBackend_native (verify_outcome : Thrown + unit) :
  UsePurchases.verifyWithBackend true verify_outcome
  = (UsePurchases.verify_trace verify_outcome, Return tt).
Proof. destruct verify_outcome as [e | []]; reflexivity. Qed.

(** Off a native platform [verifyWithBackend] returns at once. *)
Lemma verifyWithBackend_web (verify_outcome : Thrown + unit) :
  UsePurchases.verifyWithBackend false verify_outcome = ([], Return tt).
Proof. reflexivity. Qed.

End TraceFacts.

Section ServiceFacts.

Variables (native initialized : bool) (sdk : PurchasesService.Sdk).

Lemma getOfferings_returns :
  exists tr offerings,
    PurchasesService.getOfferings native initialized sdk
    = (tr, Return offerings)
    /\ forallb quiet tr = true.
Proof.
  unfold PurchasesService.getOfferings.
  destruct initialized, native; simpl; try (do 2 eexists; split; reflexivity).
  destruct (PurchasesService.Purchases_getOfferings sdk) as [e | [[[pkgs |]] |]];
    simpl; do 2 eexists; split; reflexivity.
Qed.

(** The service's [purchaseProduct] never rejects: it resolves to a
    result, and its trace is quiet. *)
Lemma service_purchaseProduct_returns (productId : string) :
  exists tr result,
    PurchasesService.purchaseProduct native initialized sdk productId
    = (tr, Return result)
    /\ forallb quiet tr = true.
Proof.
  unfold PurchasesService.purchaseProduct.
  destruct (negb initialized || negb native); simpl;
    [do 2 eexists; split; reflexivity |].
  destruct getOfferings_returns as (tr & offerings & -> & Hq). simpl.
  destruct (PurchasesService.find_package productId offerings None) as [pkg |];
    simpl.
  - destruct (PurchasesService.Purchases_purchasePackage sdk pkg) as [e | info];
      simpl; do 2 eexists; (split; [reflexivity |]);
      rewrite !forallb_app, Hq; reflexivity.
  - do 2 eexists; split; [reflexivity |].
    rewrite !forallb_app, Hq; reflexivity.
Qed.

Lemma service_restorePurchases_returns :
  exists tr result,
    PurchasesService.restorePurchases native initialized sdk
    = (tr, Return result)
    /\ forallb quiet tr = true.
Proof.
  unfold PurchasesService.restorePurchases.
  destruct (negb initialized || negb native); simpl;
    [do 2 eexists; split; reflexivity |].
  destruct (PurchasesService.Purchases_restorePurchases sdk) as [e | info];
    simpl; do 2 eexists; split; reflexivity.
Qed.

Lemma service_getActiveSubscription_returns :
  exists tr a,
    PurchasesService.getActiveSubscription native initialized sdk
    = (tr, Return a)
    /\ forallb quiet tr = true
    /\ match a with Some sub => isActive sub = true | None => True end.
Proof.
  unfold PurchasesService.getActiveSubscription,
    PurchasesService.getCustomerInfo.
  destruct (negb initialized || negb native); simpl;
    [do 2 eexists; repeat split; reflexivity |].
  destruct (PurchasesService.Purchases_getCustomerInfo sdk) as [e | info];
    simpl; [do 2 eexists; repeat split; reflexivity |].
  destruct (PurchasesService.get_entry
              (entitlements_active info)
              PurchasesService.ENTITLEMENTS_PREMIUM) as [ent |];
    simpl; [| do 2 eexists; repeat split; reflexivity].
  destruct (ent_isActive ent); simpl;
    do 2 eexists; repeat split; reflexivity.
Qed.

End ServiceFacts.

Section PurchaseFlow.
Import UsePurchases.

Variable service : Service.
Variable verify_outcome : Thrown + unit.
Variable st : HookState.

(** Off a native platform, or before initialisation, [purchaseProduct]
    never reaches the provider: it shows the "Purchase Error" toast and
    returns false. *)
Lemma purchaseProduct_unavailable (native : bool) (productId : string) :
  negb (isInitialized st) || negb native = true ->
  purchaseProduct native service verify_outcome st productId
  = ([ConsoleError "Purchase failed:";
      ToastShown {| title := "Purchase Error";
                    description := "Purchases not available on this platform";
                    variant := Some "destructive" |};
      SetIsLoading false],
     Return false).
Proof.
  intros H. unfold purchaseProduct. rewrite H. reflexivity.
Qed.

(** C9. When the provider's purchase call resolves to a failure whose
    error code is [PURCHASE_CANCELLED], [purchaseProduct] returns false
    and adds no toast of its own: apart from the service's trace it only
    sets and clears the loading flag.  With any other error code it also
    returns false, after showing the destructive "Purchase Failed" toast
    that carries the provider's message. *)
Theorem purchaseProduct_cancellation_is_silent
        (productId : string) (tr : list event)
        (result : PurchasesService.PurchaseResult)
        (e : PurchasesService.PurchasesError) :
  isInitialized st = true ->
  service_purchaseProduct service productId = (tr, Return result) ->
  PurchasesService.success result = false ->
  PurchasesService.error result = Some e ->
  forallb quiet tr = true ->
  let run := purchaseProduct true service verify_outcome st productId in
  (PurchasesService.err_code e = "PURCHASE_CANCELLED" ->
     run = ([SetIsLoading true] ++ tr ++ [SetIsLoading false], Return false)
     /\ toasts (trace run) = [])
  /\ (PurchasesService.err_code e <> "PURCHASE_CANCELLED" ->
        run = ([SetIsLoading true] ++ tr
               ++ [ToastShown (purchase_failed (PurchasesService.err_message e));
                   SetIsLoading false],
               Return false)
        /\ toasts (trace run)
           = [purchase_failed (PurchasesService.err_message e)]).
Proof.
  intros Hinit Hsvc Hfail Herr Hq run.
  assert (Hrun : run
    = if (PurchasesService.err_code e =? "PURCHASE_CANCELLED")%string
      then ([SetIsLoading true] ++ tr ++ [SetIsLoading false], Return false)
      else ([SetIsLoading true] ++ tr
            ++ [ToastShown (purchase_failed (PurchasesService.err_message e));
                SetIsLoading false],
            Return false)).
  { unfold run, purchaseProduct. rewrite Hinit. simpl.
    rewrite Hsvc. simpl. rewrite Hfail, Herr.
    destruct (PurchasesService.err_code e =? "PURCHASE_CANCELLED")%string;
      simpl; rewrite <- ?app_assoc, ?app_nil_r; reflexivity. }
  split; intros Hcode.
  - apply String.eqb_eq in Hcode. rewrite Hcode in Hrun.
    split; [exact Hrun |].
    rewrite Hrun. unfold trace. simpl.
    rewrite toasts_app, quiet_toasts by exact Hq. reflexivity.
  - apply String.eqb_neq in Hcode. rewrite Hcode in Hrun.
    split; [exact Hrun |].
    rewrite Hrun. unfold trace. simpl.
    rewrite toasts_app, quiet_toasts by exact Hq. reflexivity.
Qed.

(** The run of [purchaseProduct] once the provider has accepted the
    purchase: the subscription the provider reports is stored, then the
    verification runs, then success is announced. *)
Lemma purchaseProduct_accepted_run
      (productId : string) (tr_p tr_a : list event)
      (result : PurchasesService.PurchaseResult) (info : CustomerInfo)
      (a : option ActiveSubscription) :
  isInitialized st = true ->
  service_purchaseProduct service productId = (tr_p, Return result) ->
  PurchasesService.success result = true ->
  PurchasesService.customerInfo result = Some info ->
  service_getActiveSubscription service = (tr_a, Return a) ->
  purchaseProduct true service verify_outcome st productId
  = (([SetIsLoading true] ++ tr_p ++ tr_a ++ [SetActiveSubscription a])
     ++ verify_trace verify_outcome
     ++ [ToastShown purchase_successful; SetIsLoading false],
     Return true).
Proof.
  intros Hinit Hsvc Hok Hinfo Hact.
  unfold purchaseProduct. rewrite Hinit. simpl.
  rewrite Hsvc. simpl. rewrite Hok, Hinfo, Hact. simpl.
  rewrite verifyWithBackend_native. simpl.
  rewrite <- !app_assoc. simpl. rewrite <- !app_assoc. reflexivity.
Qed.

Lemma restorePurchases_accepted_run
      (tr_r tr_a : list event)
      (result : PurchasesService.PurchaseResult) (info : CustomerInfo)
      (a : option ActiveSubscription) :
  isInitialized st = true ->
  service_restorePurchases service = (tr_r, Return result) ->
  PurchasesService.success result = true ->
  PurchasesService.customerInfo result = Some info ->
  service_getActiveSubscription service = (tr_a, Return a) ->
  restorePurchases true service verify_outcome st
  = (([SetIsLoading true] ++ tr_r ++ tr_a ++ [SetActiveSubscription a])
     ++ verify_trace verify_outcome
     ++ [ToastShown (if match a with
                        | Some sub => isActive sub
                        | None => false
                        end
                     then purchases_restored else no_purchases_found);
         SetIsLoading false],
     Return true).
Proof.
  intros Hinit Hsvc Hok Hinfo Hact.
  unfold restorePurchases. rewrite Hinit. simpl.
  rewrite Hsvc. simpl. rewrite Hok, Hinfo, Hact. simpl.
  rewrite verifyWithBackend_native. simpl.
  destruct (match a with Some sub => isActive sub | None => false end);
    simpl; rewrite <- !app_assoc; simpl; rewrite <- !app_assoc; reflexivity.
Qed.

Lemma state_after_stored (tr : list event) (a : option ActiveSubscription) :
  forallb quiet tr = true ->
  activeSubscription
    (state_after st ([SetIsLoading true] ++ tr ++ [SetActiveSubscription a]))
  = a.
Proof.
  intros Hq. rewrite !state_after_app.
  rewrite (quiet_state_after _ tr Hq). reflexivity.
Qed.

End PurchaseFlow.

Section Runs.
Import UsePurchases Scenario.

(** The provider reports a cancellation: nothing is shown. *)
Lemma purchaseProduct_cancellation_is_silent_witness :
  outcome (purchaseProduct true (purchasesService true true sdk_purchase_cancelled)
             (inr tt) ready monthly) = Return false
  /\ toasts (trace (purchaseProduct true
                      (purchasesService true true sdk_purchase_cancelled)
                      (inr tt) ready monthly)) = [].
Proof.
  edestruct (purchaseProduct_cancellation_is_silent
               (purchasesService true true sdk_purchase_cancelled)
               (inr tt) ready monthly) as [Hcancelled _];
    [reflexivity | reflexivity | reflexivity | reflexivity | reflexivity |].
  destruct (Hcancelled eq_refl) as [Hrun Htoasts].
  split; [rewrite Hrun; reflexivity | exact Htoasts].
Defined.

(** The provider reports another error: its message is shown. *)
Lemma purchaseProduct_refused_shows_message :
  toasts (trace (purchaseProduct true
                   (purchasesService true true sdk_purchase_refused)
                   (inr tt) ready monthly))
  = [purchase_failed "Payment declined"].
Proof. reflexivity. Qed.

End Runs.

(* ================================================================== *)
(** * Further properties of the limit evaluator *)
(* ================================================================== *)

Section EvaluatorFacts.
Import SubscriptionDisplay.

(** X1. Access never shrinks with premium: if a household without
    premium is let through for a key, numeric or boolean, a household
    with premium is let through for it too. *)
Theorem canHouseholdAccessFeature_monotone (without with_ : value)
        (feature : LimitsKey) :
  truthy without = false ->
  truthy with_ = true ->
  truthy (canHouseholdAccessFeature without feature) = true ->
  truthy (canHouseholdAccessFeature with_ feature) = true.
Proof.
  intros Hw Hp. unfold canHouseholdAccessFeature. rewrite Hw, Hp.
  destruct feature; simpl; intros H; try discriminate H; reflexivity.
Qed.

Lemma canHouseholdAccessFeature_monotone_witness :
  truthy (canHouseholdAccessFeature (VBool true) key_hasRealTimeChat) = true.
Proof.
  apply (canHouseholdAccessFeature_monotone VUndefined (VBool true)
           key_hasRealTimeChat); reflexivity.
Defined.

(** X2. The catalog under the limit test: on premium no count reaches any
    of the three limits, on basic no count reaches the members-per-group
    limit, and on basic the group and event limits are reached by every
    count from zero on and by no negative count. *)
Theorem plan_limits_reached (count : Z) :
  hasReachedLimit count (maxGroups (getPlanLimits premium)) = false
  /\ hasReachedLimit count (maxEventsPerMonth (getPlanLimits premium)) = false
  /\ hasReachedLimit count (maxMembersPerGroup (getPlanLimits premium)) = false
  /\ hasReachedLimit count (maxMembersPerGroup (getPlanLimits basic)) = false
  /\ hasReachedLimit count (maxGroups (getPlanLimits basic)) = (0 <=? count)
  /\ hasReachedLimit count (maxEventsPerMonth (getPlanLimits basic))
     = (0 <=? count).
Proof.
  repeat split; try reflexivity; simpl; unfold hasReachedLimit; simpl;
    apply Z.geb_leb.
Qed.

Lemma mobile_store_info (provider : option string) :
  providerName (getSubscriptionDisplayInfo provider) = "Mobile App Store"
  <-> provider = Some "revenuecat".
Proof.
  unfold getSubscriptionDisplayInfo, isRevenueCatSubscription.
  destruct provider as [s |]; simpl; [| split; discriminate].
  destruct (String.eqb_spec s "revenuecat") as [E | E]; simpl;
    split; intros H; try discriminate H; congruence.
Qed.

(** X3. The provider predicates on every argument: a provider is never
    both RevenueCat and Stripe; it counts as Stripe exactly when it is
    undefined, empty or ['stripe']; the display information is the mobile
    store's exactly for ['revenuecat'], and the web one for everything
    else, unknown providers included. *)
Theorem provider_predicates (provider : option string) :
  (isRevenueCatSubscription provider = true ->
   isStripeSubscription provider = false)
  /\ (isStripeSubscription provider = true
      <-> provider = None \/ provider = Some "" \/ provider = Some "stripe")
  /\ (providerName (getSubscriptionDisplayInfo provider) = "Mobile App Store"
      <-> provider = Some "revenuecat")
  /\ (provider <> Some "revenuecat" ->
      providerName (getSubscriptionDisplayInfo provider) = "Web Payment").
Proof.
  unfold getSubscriptionDisplayInfo, isStripeSubscription,
    isRevenueCatSubscription.
  destruct provider as [s |]; simpl.
  - split; [| split; [| split]].
    + intros H. apply String.eqb_eq in H. subst s. reflexivity.
    + rewrite orb_true_iff, negb_involutive, !String.eqb_eq.
      split.
      * intros [-> | ->]; auto.
      * intros [H | [H | H]]; [discriminate H | |];
          injection H as ->; auto.
    + destruct (String.eqb_spec s "revenuecat") as [E | E]; simpl;
        split; intros H; try discriminate H; congruence.
    + intros H. destruct (String.eqb_spec s "revenuecat") as [E | E];
        [congruence | reflexivity].
  - repeat split; try discriminate; auto.
Qed.

Lemma provider_predicates_witness :
  isStripeSubscription (Some "revenuecat") = false
  /\ providerName (getSubscriptionDisplayInfo (Some "paypal")) = "Web Payment".
Proof.
  split.
  - apply (proj1 (provider_predicates (Some "revenuecat"))). reflexivity.
  - apply (proj2 (proj2 (proj2 (provider_predicates (Some "paypal"))))).
    discriminate.
Defined.

Lemma date_le_later (d : option Z) (now now' : Z) :
  now <= now' -> date_le d (Some now) = true -> date_le d (Some now') = true.
Proof.
  destruct d as [t |]; simpl; [| discriminate].
  rewrite !Z.leb_le. lia.
Qed.

(** X4. Expiry is monotone in the clock, whatever the arguments: a
    subscription found active at some time was active at every earlier
    time, so one found expired stays expired. *)
Theorem hasActiveSubscription_earlier
        (Date_parse : string -> option Z) (now now' : Z)
        plan status endsAt provider :
  now <= now' ->
  hasActiveSubscription Date_parse now' plan status endsAt provider = true ->
  hasActiveSubscription Date_parse now plan status endsAt provider = true.
Proof.
  intros Hle. rewrite !hasActiveSubscription_unfold.
  destruct (strict_eq_lit plan "premium" && strict_eq_lit status "active");
    simpl; [| discriminate].
  destruct endsAt as [e |]; [| reflexivity].
  destruct (endsAt_truthy e); [| reflexivity].
  destruct (date_le (new_Date Date_parse e) (Some now)) eqn:Hd;
    [| reflexivity].
  rewrite (date_le_later _ _ _ Hle Hd). discriminate.
Qed.

Lemma hasActiveSubscription_earlier_witness :
  hasActiveSubscription (fun _ => None) 10 (Some "premium") (Some "active")
    (Some (EndsAtDate (Some 30))) None = true.
Proof.
  apply (hasActiveSubscription_earlier (fun _ => None) 10 20);
    [lia | reflexivity].
Defined.

End EvaluatorFacts.

(* ================================================================== *)
(** * Further properties of the reconciler *)
(* ================================================================== *)

Section ReconcilerMore.
Import UseHouseholdSubscription.

Variable hh : option HouseholdSubscriptionStatus.
Variable householdLoading : bool.
Variable purchases : UsePurchases.HookState.
Variable native : bool.
Variable user : option User.

Local Abbreviation result :=
  (useHouseholdSubscription hh householdLoading purchases native user).

Local Abbreviation mobile_active :=
  (match UsePurchases.activeSubscription purchases with
   | Some a => isActive a
   | None => false
   end).

Lemma mobile_term_truthy :
  truthy (VBool native && mobileHasPremium_ purchases)%js
  = native && mobile_active.
Proof.
  unfold mobileHasPremium_. rewrite usePurchases_hasPremium_bool.
  unfold js_and. destruct native; reflexivity.
Qed.

Lemma household_provider_cases :
  truthy (householdStatus_subscriptionProvider hh) = true
  <-> exists h s, hh = Some h /\ hs_subscriptionProvider h = Some s
                  /\ s <> "".
Proof.
  unfold householdStatus_subscriptionProvider. split.
  - destruct hh as [h |]; [| discriminate].
    destruct (hs_subscriptionProvider h) as [s |] eqn:Hs; [| discriminate].
    simpl. intros H. apply negb_true_iff, String.eqb_neq in H.
    exists h, s. auto.
  - intros (h & s & -> & Hs & Hne). rewrite Hs. simpl.
    apply negb_true_iff, String.eqb_neq, Hne.
Qed.

Lemma label_without_household :
  truthy (householdStatus_subscriptionProvider hh) = false ->
  subscriptionProvider result
  = VStr (if native && mobile_active then "revenuecat" else "stripe").
Proof.
  intros H. simpl subscriptionProvider.
  rewrite (subscriptionProvider_without_household_provider _ _ _ _ H).
  rewrite mobile_term_truthy.
  destruct (native && mobile_active); reflexivity.
Qed.

Lemma label_of_household h s :
  hh = Some h -> hs_subscriptionProvider h = Some s -> s <> "" ->
  subscriptionProvider result = VStr s.
Proof.
  intros Ehh Hs Hne. simpl subscriptionProvider. rewrite Ehh.
  unfold computedSubscriptionProvider, householdStatus_subscriptionProvider.
  apply String.eqb_neq in Hne.
  unfold js_or. rewrite Hs.
  repeat (progress (simpl; rewrite ?Hne)). reflexivity.
Qed.

(** X5. The provider label is always a non-empty string.  A non-empty
    provider in the household status wins, also over an active mobile
    purchase; without one the label is ['revenuecat'] exactly on a native
    platform with an active mobile purchase, and ['stripe'] otherwise. *)
Theorem subscriptionProvider_label :
  (exists s, subscriptionProvider result = VStr s /\ s <> "")
  /\ (forall h s, hh = Some h -> hs_subscriptionProvider h = Some s ->
                  s <> "" -> subscriptionProvider result = VStr s)
  /\ (truthy (householdStatus_subscriptionProvider hh) = false ->
      subscriptionProvider result
      = VStr (if native && mobile_active then "revenuecat" else "stripe")).
Proof.
  split; [| split; [exact label_of_household | exact label_without_household]].
  destruct (truthy (householdStatus_subscriptionProvider hh)) eqn:Hh.
  - destruct (proj1 household_provider_cases Hh) as (h & s & Ehh & Hs & Hne).
    exists s. split; [apply (label_of_household h s Ehh Hs Hne) | exact Hne].
  - rewrite (label_without_household Hh).
    destruct (native && mobile_active); eexists; (split; [reflexivity |]);
      discriminate.
Qed.

(** X6. The feature gate handed to the pages follows the decision: the
    keys [canUseAdvancedFeatures], [hasEventPlanning] and
    [hasMailingLabels] are granted exactly when the decision is premium,
    and [hasRealTimeChat] and [hasTaskManagement] are always granted. *)
Theorem canAccessFeature_follows_decision :
  (forall feature,
      feature = key_canUseAdvancedFeatures
      \/ feature = key_hasEventPlanning
      \/ feature = key_hasMailingLabels ->
      canAccessFeature result feature = hasPremium result)
  /\ canAccessFeature result key_hasRealTimeChat = VBool true
  /\ canAccessFeature result key_hasTaskManagement = VBool true.
Proof.
  simpl canAccessFeature. simpl hasPremium.
  rewrite computedHasPremium_bool.
  unfold canHouseholdAccessFeature. simpl truthy.
  split; [| split].
  - intros feature [-> | [-> | ->]];
      destruct (_ || _ || _)%bool; reflexivity.
  - destruct (_ || _ || _)%bool; reflexivity.
  - destruct (_ || _ || _)%bool; reflexivity.
Qed.

(** X7. The mobile source is gated by the platform in every output: off
    a native platform the exposed [mobileHasPremium] is false and the
    loading flag is the household query's alone; on a native platform the
    loading flag also waits for the purchases hook, and an exposed
    [mobileHasPremium] that is true makes the decision premium. *)
Theorem mobile_source_gated :
  (native = false ->
   mobileHasPremium result = VBool false
   /\ isLoading result = VBool householdLoading)
  /\ (native = true ->
      isLoading result
      = VBool (householdLoading || UsePurchases.isLoading purchases))
  /\ (mobileHasPremium result = VBool true ->
      hasPremium result = VBool true).
Proof.
  split; [| split].
  - intros ->. split; [reflexivity |].
    simpl. destruct householdLoading; reflexivity.
  - intros ->. simpl. unfold mobileLoading, js_or, js_and. simpl.
    destruct householdLoading; reflexivity.
  - simpl mobileHasPremium. simpl hasPremium.
    rewrite computedHasPremium_bool.
    unfold mobileHasPremium_. rewrite usePurchases_hasPremium_bool.
    destruct native; [| discriminate].
    intros H. injection H as ->.
    rewrite orb_true_r. reflexivity.
Qed.

(** X8. What the pricing page derives: its current plan is premium
    exactly when the decision is, and it shows the mobile store's
    instructions exactly when the household status names ['revenuecat'],
    or names no provider while a mobile purchase is active on a native
    platform. *)
Theorem pricing_derived_values :
  (PricingHandlers.currentPlan (hasPremium result) = premium
   <-> hasPremium result = VBool true)
  /\ (SubscriptionDisplay.providerName
        (PricingHandlers.displayInfo (subscriptionProvider result))
      = "Mobile App Store"
      <-> (exists h, hh = Some h
                     /\ hs_subscriptionProvider h = Some "revenuecat")
          \/ (truthy (householdStatus_subscriptionProvider hh) = false
              /\ native = true /\ mobile_active = true)).
Proof.
  split.
  - simpl hasPremium. rewrite computedHasPremium_bool.
    unfold PricingHandlers.currentPlan. simpl truthy.
    destruct (_ || _ || _)%bool; split; intros H;
      try reflexivity; discriminate H.
  - unfold PricingHandlers.displayInfo.
    rewrite mobile_store_info.
    pose proof label_of_household as Hyes.
    pose proof label_without_household as Hno.
    destruct (truthy (householdStatus_subscriptionProvider hh)) eqn:Hh.
    + destruct (proj1 household_provider_cases Hh) as (h & p & Ehh & Hp & Hne).
      rewrite (Hyes h p Ehh Hp Hne). simpl.
      split.
      * intros H. left. exists h. split; [exact Ehh | congruence].
      * intros [(h' & Hh' & Hrc) | (Habs & _)]; [| discriminate Habs].
        rewrite Ehh in Hh'. injection Hh' as <-. congruence.
    + rewrite (Hno eq_refl). simpl.
      split.
      * intros H. right.
        destruct (native && mobile_active) eqn:Hm; [| discriminate H].
        apply andb_true_iff in Hm. tauto.
      * intros [(h & Ehh & Hrc) | (_ & Hn & Hm)].
        -- assert (Ht : truthy (householdStatus_subscriptionProvider hh) = true).
           { apply household_provider_cases. exists h, "revenuecat".
             repeat split; auto. discriminate. }
           congruence.
        -- rewrite Hn, Hm. reflexivity.
Qed.

End ReconcilerMore.

Section ReconcilerExamples.
Import UseHouseholdSubscription.

Lemma subscriptionProvider_label_witness :
  subscriptionProvider
    (useHouseholdSubscription
       (Some {| hs_hasPremium := true;
                hs_subscriptionProvider := Some "stripe";
                hs_premiumUser := None;
                hs_household := None |})
       false
       {| UsePurchases.isInitialized := true;
          UsePurchases.isLoading := false;
          UsePurchases.activeSubscription :=
            Some {| productId := Scenario.monthly;
                    isActive := true;
                    renewalDate := None;
                    expirationDate := None;
                    originalTransactionId := None;
                    entitlements := [] |} |}
       true None)
  = VStr "stripe".
Proof.
  eapply (proj1 (proj2 (subscriptionProvider_label _ _ _ _ _)));
    [reflexivity | reflexivity | discriminate].
Defined.

Lemma canAccessFeature_follows_decision_witness :
  canAccessFeature
    (useHouseholdSubscription (Some Scenario.household_basic) false
       Scenario.ready true None)
    key_hasMailingLabels
  = VBool false.
Proof.
  rewrite (proj1 (canAccessFeature_follows_decision
                    (Some Scenario.household_basic) false Scenario.ready
                    true None) key_hasMailingLabels);
    [reflexivity | right; right; reflexivity].
Defined.

Lemma mobile_source_gated_witness :
  mobileHasPremium
    (useHouseholdSubscription None true Scenario.ready false None)
  = VBool false
  /\ isLoading (useHouseholdSubscription None true Scenario.ready false None)
     = VBool true.
Proof.
  apply (proj1 (mobile_source_gated None true Scenario.ready false None)).
  reflexivity.
Defined.

Lemma pricing_derived_values_witness :
  PricingHandlers.currentPlan
    (hasPremium
       (useHouseholdSubscription None false Scenario.ready false
          (Some {| subscriptionPlan := Some "premium";
                   user_subscriptionProvider := None |})))
  = premium.
Proof.
  apply (proj1 (pricing_derived_values None false Scenario.ready false
                  (Some {| subscriptionPlan := Some "premium";
                           user_subscriptionProvider := None |}))).
  reflexivity.
Defined.

End ReconcilerExamples.

(* ================================================================== *)
(** * Further properties of the purchases service *)
(* ================================================================== *)

Section PackageSearch.
Import PurchasesService.

Variable productId : string.

Lemma find_package_found offerings pkg :
  find_package productId offerings None = Some pkg ->
  package_matches productId pkg = true
  /\ exists offering pkgs,
       In offering offerings
       /\ availablePackages offering = Some pkgs
       /\ In pkg pkgs.
Proof.
  induction offerings as [| offering rest IH]; simpl; [discriminate |].
  destruct (availablePackages offering) as [pkgs |] eqn:Hp.
  - destruct (find (package_matches productId) pkgs) as [q |] eqn:Hf.
    + intros H. injection H as <-.
      apply find_some in Hf as [Hin Hm].
      split; [exact Hm |]. exists offering, pkgs. auto.
    + intros H. destruct (IH H) as (Hm & o & ps & Ho & Hps & Hin).
      split; [exact Hm |]. exists o, ps. auto.
  - intros H. destruct (IH H) as (Hm & o & ps & Ho & Hps & Hin).
    split; [exact Hm |]. exists o, ps. auto.
Qed.

Lemma find_package_missing offerings acc :
  find_package productId offerings acc = None ->
  forall offering pkgs pkg,
    In offering offerings ->
    availablePackages offering = Some pkgs ->
    In pkg pkgs ->
    package_matches productId pkg = false.
Proof.
  revert acc. induction offerings as [| offering rest IH]; simpl;
    intros acc H o ps q Ho Hps Hq; [contradiction |].
  destruct (availablePackages offering) as [pkgs |] eqn:Hp.
  - destruct (find (package_matches productId) pkgs) as [r |] eqn:Hf;
      [discriminate H |].
    destruct Ho as [<- | Ho].
    + rewrite Hp in Hps. injection Hps as <-.
      exact (find_none _ _ Hf q Hq).
    + exact (IH None H o ps q Ho Hps Hq).
  - destruct Ho as [<- | Ho]; [congruence |].
    exact (IH acc H o ps q Ho Hps Hq).
Qed.

(** X9. The search for the package to purchase is exact: a package is
    found only among the available packages of the offerings and only if
    its product identifier is the requested one, and none is found only
    if no available package of any offering carries that identifier; a
    package without product never matches. *)
Theorem find_package_exact (offerings : list PurchasesOffering) :
  (forall pkg, find_package productId offerings None = Some pkg ->
     (exists p, product pkg = Some p /\ identifier p = productId)
     /\ exists offering pkgs,
          In offering offerings
          /\ availablePackages offering = Some pkgs
          /\ In pkg pkgs)
  /\ (find_package productId offerings None = None ->
      forall offering pkgs pkg p,
        In offering offerings ->
        availablePackages offering = Some pkgs ->
        In pkg pkgs ->
        product pkg = Some p ->
        identifier p <> productId).
Proof.
  split.
  - intros pkg H. destruct (find_package_found _ _ H) as [Hm Hin].
    split; [| exact Hin].
    unfold package_matches in Hm.
    destruct (product pkg) as [p |]; [| discriminate Hm].
    exists p. split; [reflexivity | apply String.eqb_eq, Hm].
  - intros H o ps q p Ho Hps Hq Hp.
    pose proof (find_package_missing _ _ H o ps q Ho Hps Hq) as Hm.
    unfold package_matches in Hm. rewrite Hp in Hm.
    apply String.eqb_neq, Hm.
Qed.

End PackageSearch.

Lemma find_package_exact_witness :
  exists p,
    PurchasesService.product Scenario.monthly_package = Some p
    /\ PurchasesService.identifier p = Scenario.monthly.
Proof.
  apply (proj1 (find_package_exact Scenario.monthly
                  [Examples.mixed_offering]) Scenario.monthly_package).
  reflexivity.
Defined.

Section ServiceMore.
Import PurchasesService.

Variables (native initialized : bool) (sdk : Sdk).

Lemma or_default_nonempty (x : option string) (dflt : string) :
  dflt <> "" -> or_default x dflt <> "".
Proof.
  intros Hd. unfold or_default. destruct x as [s |]; [| exact Hd].
  destruct (String.eqb_spec s ""); assumption.
Qed.

Lemma failure_wellformed (e : Thrown) (dflt : string) :
  dflt <> "" ->
  success (failure e dflt) = false
  /\ customerInfo (failure e dflt) = None
  /\ exists err, error (failure e dflt) = Some err
                 /\ err_message err <> "" /\ err_code err <> "".
Proof.
  intros Hd. repeat split. eexists. split; [reflexivity |].
  split; apply or_default_nonempty; [exact Hd | discriminate].
Qed.

(** X10. Whatever the service's [purchaseProduct] or [restorePurchases]
    resolves to is well formed: a success carries the customer information
    and no error, a failure carries no customer information and an error
    whose message and code are both non-empty.  A purchase succeeds only
    when the service is initialised on a native platform, the package was
    found and the provider accepted it, and the customer information is
    then the provider's; likewise for a restore. *)
Theorem service_results_wellformed (productId : string)
        (tr : list event) (result : PurchaseResult) :
  (purchaseProduct native initialized sdk productId = (tr, Return result) ->
   (success result = true ->
    error result = None
    /\ native = true /\ initialized = true
    /\ exists offerings_trace offerings pkg info,
         getOfferings native initialized sdk
         = (offerings_trace, Return offerings)
         /\ find_package productId offerings None = Some pkg
         /\ Purchases_purchasePackage sdk pkg = inr info
         /\ customerInfo result = Some info)
   /\ (success result = false ->
       customerInfo result = None
       /\ exists err, error result = Some err
                      /\ err_message err <> "" /\ err_code err <> ""))
  /\ (restorePurchases native initialized sdk = (tr, Return result) ->
      (success result = true ->
       error result = None
       /\ native = true /\ initialized = true
       /\ exists info, Purchases_restorePurchases sdk = inr info
                       /\ customerInfo result = Some info)
      /\ (success result = false ->
          customerInfo result = None
          /\ exists err, error result = Some err
                         /\ err_message err <> "" /\ err_code err <> "")).
Proof.
  split.
  - unfold purchaseProduct.
    destruct initialized, native; simpl;
      try (intros H; injection H as _ <-;
           split; [discriminate |]; intros _;
           apply failure_wellformed; discriminate).
    destruct (getOfferings_returns true true sdk) as (otr & offs & Ho & _).
    rewrite Ho. simpl.
    destruct (find_package productId offs None) as [pkg |] eqn:Hf; simpl.
    + destruct (Purchases_purchasePackage sdk pkg) as [e | info] eqn:Hp;
        simpl; intros H; injection H as _ <-.
      * split; [discriminate |]. intros _.
        apply failure_wellformed; discriminate.
      * split; [| discriminate]. intros _.
        repeat split. exists otr, offs, pkg, info. auto.
    + intros H; injection H as _ <-.
      split; [discriminate |]. intros _.
      apply failure_wellformed; discriminate.
  - unfold restorePurchases.
    destruct initialized, native; simpl;
      try (intros H; injection H as _ <-;
           split; [discriminate |]; intros _;
           apply failure_wellformed; discriminate).
    destruct (Purchases_restorePurchases sdk) as [e | info] eqn:Hr;
      simpl; intros H; injection H as _ <-.
    + split; [discriminate |]. intros _.
      apply failure_wellformed; discriminate.
    + split; [| discriminate]. intros _.
      repeat split. exists info. auto.
Qed.

End ServiceMore.

Lemma service_results_wellformed_witness :
  PurchasesService.error
    {| PurchasesService.success := true;
       PurchasesService.customerInfo := Some Scenario.premium_customer;
       PurchasesService.error := None |}
  = None.
Proof.
  apply (proj1 (service_results_wellformed true true
                  Scenario.sdk_purchase_accepted Scenario.monthly
                  [SdkCall "Purchases.getOfferings";
                   ConsoleLog "RevenueCat: Available offerings retrieved";
                   SdkCall "Purchases.purchasePackage";
                   ConsoleLog "RevenueCat: Purchase successful"]
                  {| PurchasesService.success := true;
                     PurchasesService.customerInfo :=
                       Some Scenario.premium_customer;
                     PurchasesService.error := None |})
           eq_refl);
    reflexivity.
Defined.

Section Availability.
Import PurchasesService PurchasesLifecycle.

Variables (native initialized : bool) (sdk : Sdk).
Variables (logIn_outcome logOut_outcome : Thrown + unit).

(** X11. Unless the service is available (initialised, on a native
    platform), none of its methods touches the provider SDK: offerings,
    purchase, restore, customer information, active subscription, premium
    check, user id and logout all complete without a single SDK call. *)
Theorem sdk_untouched_unless_available (productId userId method : string) :
  isAvailable native initialized = false ->
  ~ In (SdkCall method) (trace (getOfferings native initialized sdk))
  /\ ~ In (SdkCall method)
          (trace (purchaseProduct native initialized sdk productId))
  /\ ~ In (SdkCall method) (trace (restorePurchases native initialized sdk))
  /\ ~ In (SdkCall method) (trace (getCustomerInfo native initialized sdk))
  /\ ~ In (SdkCall method)
          (trace (getActiveSubscription native initialized sdk))
  /\ ~ In (SdkCall method)
          (trace (hasPremiumEntitlement native initialized sdk))
  /\ setUserId native initialized logIn_outcome userId = ([], Return tt)
  /\ logout native initialized logOut_outcome = ([], Return tt).
Proof.
  unfold isAvailable.
  destruct native, initialized; simpl; intros H; try discriminate H;
    repeat split; intros Hin; simpl in Hin;
    repeat (destruct Hin as [Hin | Hin]; [discriminate Hin |]);
    exact Hin.
Qed.

End Availability.

Lemma sdk_untouched_unless_available_witness :
  ~ In (SdkCall "Purchases.purchasePackage")
       (trace (PurchasesService.purchaseProduct false false
                 Scenario.sdk_purchase_accepted Scenario.monthly)).
Proof.
  apply (sdk_untouched_unless_available false false
           Scenario.sdk_purchase_accepted (inr tt) (inr tt)
           Scenario.monthly "user-1" "Purchases.purchasePackage").
  reflexivity.
Defined.

(** Splits a goal and its hypotheses into cases and closes those that
    rest on an equation between distinct constructors. *)
Ltac split_cases :=
  repeat match goal with
         | |- _ /\ _ => split
         | |- _ <-> _ => split
         | |- forall _, _ => intro
         | |- ~ _ => intro
         | H : _ \/ _ |- _ => destruct H
         | H : _ /\ _ |- _ => destruct H
         | H : exists _, _ |- _ => destruct H
         | H : In _ _ |- _ => simpl in H
         | H : False |- _ => contradiction
         | H : _ = _ |- _ => discriminate H
         end.

Section Initialisation.
Import PurchasesLifecycle.

Variables (native : bool) (platform apple google : string).
Variables (initialized : bool) (setLogLevel configure : Thrown + unit).

Local Abbreviation run :=
  (initialize native platform apple google initialized setLogLevel configure).

Lemma apiKey_configured :
  apiKey platform apple google <> ""
  <-> (platform = "ios" /\ apple <> "")
      \/ (platform = "android" /\ google <> "").
Proof.
  unfold apiKey.
  destruct (String.eqb_spec platform "ios") as [Hi | Hi].
  - split; [intros H; left; auto |].
    intros [[_ H] | [Ha _]]; [exact H |].
    rewrite Hi in Ha. discriminate Ha.
  - destruct (String.eqb_spec platform "android") as [Ha | Ha].
    + split; [intros H; right; auto |].
      intros [[Hi' _] | [_ H]]; [contradiction | exact H].
    + split; [intros H; contradiction H; reflexivity |].
      intros [[Hi' _] | [Ha' _]]; contradiction.
Qed.

(** X12. [initialize] leaves the service initialised exactly when it
    already was, or when on a native platform the platform is ios or
    android with its key configured and both SDK calls succeed.  Off a
    native platform it resolves without initialising; it rejects only on
    a native platform; and when initialised already, or when no key is
    configured for the platform, it makes no SDK call. *)
Theorem initialize_outcome :
  (outcome run = Return true
   <-> initialized = true
       \/ (native = true
           /\ ((platform = "ios" /\ apple <> "")
               \/ (platform = "android" /\ google <> ""))
           /\ (exists u, setLogLevel = inr u)
           /\ (exists u, configure = inr u)))
  /\ (outcome run = Return false <-> initialized = false /\ native = false)
  /\ (forall e, outcome run = Throw e ->
                initialized = false /\ native = true)
  /\ (initialized = true \/ apiKey platform apple google = "" ->
      forall method, ~ In (SdkCall method) (trace run)).
Proof.
  pose proof apiKey_configured as Hkey.
  unfold initialize.
  destruct initialized; simpl; [clear Hkey; split_cases; auto |].
  destruct native; simpl; [| clear Hkey; split_cases; auto].
  destruct (String.eqb_spec (apiKey platform apple google) "") as [Hk | Hk];
    simpl.
  - assert (Hno : ~ ((platform = "ios" /\ apple <> "")
                     \/ (platform = "android" /\ google <> ""))).
    { intros H. apply Hkey in H. contradiction. }
    clear Hkey. split_cases; auto; tauto.
  - pose proof (proj1 Hkey Hk) as Hc. clear Hkey.
    destruct setLogLevel as [e1 | []]; simpl;
      [split_cases; auto; contradiction |].
    destruct configure as [e2 | []]; simpl;
      [split_cases; auto; contradiction |].
    split; [| split_cases; auto; contradiction].
    split; [| reflexivity]. intros _. right.
    split; [reflexivity |]. split; [exact Hc |].
    split; exists tt; reflexivity.
Qed.

End Initialisation.

Lemma initialize_outcome_witness :
  outcome (PurchasesLifecycle.initialize true "android" "" "goog_key" false
             (inr tt) (inr tt)) = Return true.
Proof.
  apply (proj1 (initialize_outcome true "android" "" "goog_key" false
                  (inr tt) (inr tt))).
  right. split; [reflexivity |].
  split; [right; split; [reflexivity | discriminate] |].
  split; exists tt; reflexivity.
Defined.

Section Entitlement.
Import PurchasesService PurchasesLifecycle.

Variables (native initialized : bool) (sdk : Sdk).

(** X13. [getActiveSubscription] never rejects.  It resolves to a
    subscription exactly when the service is initialised on a native
    platform, the provider returns the customer information and its
    active entitlements hold a ['premium'] entry that is active; the
    subscription is then active, carries that entitlement's product
    identifier and expiration date and all active entitlements, and has a
    renewal date exactly when the entitlement will renew.  In every other
    case, a rejected provider call included, it resolves to null. *)
Theorem getActiveSubscription_outcome :
  exists tr a,
    getActiveSubscription native initialized sdk = (tr, Return a)
    /\ (forall sub, a = Some sub ->
          native = true /\ initialized = true
          /\ exists info ent,
               Purchases_getCustomerInfo sdk = inr info
               /\ get_entry (entitlements_active info) "premium" = Some ent
               /\ ent_isActive ent = true
               /\ isActive sub = true
               /\ productId sub = productIdentifier ent
               /\ expirationDate sub = ent_expirationDate ent
               /\ entitlements sub = entitlements_active info
               /\ (renewalDate sub <> None <-> willRenew ent = true))
    /\ (a = None ->
        native = false \/ initialized = false
        \/ (exists e, Purchases_getCustomerInfo sdk = inl e)
        \/ (exists info,
              Purchases_getCustomerInfo sdk = inr info
              /\ forall ent,
                   get_entry (entitlements_active info) "premium" = Some ent ->
                   ent_isActive ent = false)).
Proof.
  unfold getActiveSubscription, getCustomerInfo.
  destruct initialized, native; simpl;
    try (do 2 eexists; split; [reflexivity |];
         split; [discriminate | auto]).
  destruct (Purchases_getCustomerInfo sdk) as [e | info] eqn:Hc; simpl.
  { do 2 eexists; split; [reflexivity |].
    split; [discriminate |]. intros _. right. right. left. eauto. }
  unfold ENTITLEMENTS_PREMIUM.
  destruct (get_entry (entitlements_active info) "premium") as [ent |] eqn:He;
    simpl.
  2:{ do 2 eexists; split; [reflexivity |].
      split; [discriminate |]. intros _. right. right. right.
      exists info. split; [reflexivity |].
      intros ent H. rewrite He in H. discriminate H. }
  destruct (ent_isActive ent) eqn:Ha; simpl.
  - do 2 eexists; split; [reflexivity |].
    split; [| discriminate].
    intros sub H. injection H as <-.
    split; [reflexivity |]. split; [reflexivity |].
    exists info, ent. simpl. repeat split; auto.
    + destruct (willRenew ent); [reflexivity |]. intros H. contradiction H.
      reflexivity.
    + intros ->. discriminate.
  - do 2 eexists; split; [reflexivity |].
    split; [discriminate |]. intros _. right. right. right.
    exists info. split; [reflexivity |].
    intros ent' H. rewrite He in H. injection H as <-. exact Ha.
Qed.

(** X14. [hasPremiumEntitlement] never rejects and agrees with
    [getActiveSubscription]: it resolves to true exactly when that one
    resolves to a subscription, and it leaves the same trace. *)
Theorem hasPremiumEntitlement_agrees :
  exists tr a b,
    getActiveSubscription native initialized sdk = (tr, Return a)
    /\ hasPremiumEntitlement native initialized sdk = (tr, Return b)
    /\ (b = true <-> a <> None).
Proof.
  destruct (service_getActiveSubscription_returns native initialized sdk)
    as (tr & a & Hrun & _ & Hact).
  unfold hasPremiumEntitlement. rewrite Hrun. simpl.
  exists tr, a. eexists. split; [reflexivity |].
  rewrite app_nil_r. split; [reflexivity |].
  destruct a as [sub |].
  - rewrite Hact. simpl. split; [discriminate | reflexivity].
  - split; [discriminate | intros H; contradiction H; reflexivity].
Qed.

End Entitlement.

Lemma getActiveSubscription_outcome_witness :
  exists info ent,
    PurchasesService.Purchases_getCustomerInfo Scenario.sdk_purchase_accepted
    = inr info
    /\ PurchasesService.get_entry (entitlements_active info) "premium"
       = Some ent
    /\ ent_isActive ent = true.
Proof.
  destruct (getActiveSubscription_outcome true true
              Scenario.sdk_purchase_accepted)
    as (tr & a & Hrun & Hsome & _).
  vm_compute in Hrun. injection Hrun as <- <-.
  destruct (Hsome _ eq_refl)
    as (_ & _ & info & ent & Hinfo & Hent & Hact & _).
  exists info, ent. auto.
Defined.

Lemma hasPremiumEntitlement_agrees_witness :
  exists tr,
    PurchasesLifecycle.hasPremiumEntitlement true true
      Scenario.sdk_purchase_accepted = (tr, Return true).
Proof.
  destruct (hasPremiumEntitlement_agrees true true
              Scenario.sdk_purchase_accepted)
    as (tr & a & b & Hget & Hrun & Hiff).
  exists tr. rewrite Hrun. f_equal. f_equal. apply Hiff.
  vm_compute in Hget. injection Hget as _ <-. discriminate.
Defined.

(* ================================================================== *)
(** * Further properties of the purchases hook *)
(* ================================================================== *)

(** Closes a goal [outcome run = Return true -> _] on a branch where the
    run resolves to false: evaluates the run with the equations at hand. *)
Ltac refute_true Hi :=
  unfold UsePurchases.purchaseProduct, UsePurchases.restorePurchases;
  rewrite Hi; simpl;
  repeat match goal with
         | H : _ = _ |- _ => rewrite H; simpl
         end;
  repeat match goal with
         | |- context [match PurchasesService.error ?r with _ => _ end] =>
             destruct (PurchasesService.error r); simpl
         | |- context [if (?a =? ?b)%string then _ else _] =>
             destruct (a =? b)%string; simpl
         end;
  intros Hrun; discriminate Hrun.

Section HookMore.
Import UsePurchases.

Lemma state_after_isInitialized st (tr : list event) :
  isInitialized (state_after st tr) = isInitialized st.
Proof.
  revert st. induction tr as [| e tr IH]; intros st; [reflexivity |].
  unfold state_after in *. simpl. rewrite IH.
  destruct e; reflexivity.
Qed.

Lemma try_finally_emit {A} (m : M A) (e : event) :
  try_finally m (emit e) = (fst m ++ [e], snd m).
Proof. destruct m as [tr c]. reflexivity. Qed.

Lemma try_catch_returns {A} (m : M A) (handler : Thrown -> M A) :
  (forall e, exists tr a, handler e = (tr, Return a)) ->
  exists tr a, try_catch m handler = (tr, Return a).
Proof.
  intros Hh. destruct m as [tr [a | e]]; simpl; [eauto |].
  destruct (Hh e) as (tr' & a & ->). eauto.
Qed.

Variable native : bool.
Variable service : Service.
Variable verify_outcome : Thrown + unit.
Variable st : HookState.

Lemma purchaseProduct_returns (productId : string) :
  exists tr b,
    purchaseProduct native service verify_outcome st productId
    = (tr ++ [SetIsLoading false], Return b).
Proof.
  unfold purchaseProduct, setIsLoading. rewrite try_finally_emit.
  match goal with
  | |- context [try_catch ?m ?h] =>
      destruct (try_catch_returns m h) as (tr & b & ->)
  end; [intros e; do 2 eexists; reflexivity |].
  exists tr, b. reflexivity.
Qed.

Lemma restorePurchases_returns :
  exists tr b,
    restorePurchases native service verify_outcome st
    = (tr ++ [SetIsLoading false], Return b).
Proof.
  unfold restorePurchases, setIsLoading. rewrite try_finally_emit.
  match goal with
  | |- context [try_catch ?m ?h] =>
      destruct (try_catch_returns m h) as (tr & b & ->)
  end; [intros e; do 2 eexists; reflexivity |].
  exists tr, b. reflexivity.
Qed.

(** X15. [purchaseProduct] and [restorePurchases] never reject, whatever
    the service and the server do, a rejecting service included; the last
    thing they do is clear the loading flag, so the state after a run is
    not loading, and its [isInitialized] is unchanged. *)
Theorem purchase_flow_completes (productId : string) :
  (exists tr b,
      purchaseProduct native service verify_outcome st productId
      = (tr ++ [SetIsLoading false], Return b))
  /\ (exists tr b,
         restorePurchases native service verify_outcome st
         = (tr ++ [SetIsLoading false], Return b))
  /\ (forall run,
        run = purchaseProduct native service verify_outcome st productId
        \/ run = restorePurchases native service verify_outcome st ->
        isLoading (state_after st (trace run)) = false
        /\ isInitialized (state_after st (trace run)) = isInitialized st).
Proof.
  pose proof (purchaseProduct_returns productId) as Hp.
  pose proof restorePurchases_returns as Hr.
  split; [exact Hp | split; [exact Hr |]].
  intros run [-> | ->]; [destruct Hp as (tr & b & ->)
                        | destruct Hr as (tr & b & ->)];
    (split; [unfold trace; cbn [fst]; rewrite state_after_app; reflexivity
            | apply state_after_isInitialized]).
Qed.

(** X16. A [true] result is never reported without the provider: if
    [purchaseProduct] or [restorePurchases] resolves to true, then the
    hook was initialised on a native platform, the service call resolved
    to a success carrying customer information, the subscription the
    service then reported was stored, and the verification request was
    issued. *)
Theorem true_result_needs_provider (productId : string) :
  (outcome (purchaseProduct native service verify_outcome st productId)
   = Return true ->
   isInitialized st = true /\ native = true
   /\ exists tr result info tr_a a,
        service_purchaseProduct service productId = (tr, Return result)
        /\ PurchasesService.success result = true
        /\ PurchasesService.customerInfo result = Some info
        /\ service_getActiveSubscription service = (tr_a, Return a)
        /\ In (SetActiveSubscription a)
              (trace (purchaseProduct native service verify_outcome st
                        productId))
        /\ In (ApiRequest "POST" "/api/revenuecat/verify" [])
              (trace (purchaseProduct native service verify_outcome st
                        productId)))
  /\ (outcome (restorePurchases native service verify_outcome st)
      = Return true ->
      isInitialized st = true /\ native = true
      /\ exists tr result info tr_a a,
           service_restorePurchases service = (tr, Return result)
           /\ PurchasesService.success result = true
           /\ PurchasesService.customerInfo result = Some info
           /\ service_getActiveSubscription service = (tr_a, Return a)
           /\ In (SetActiveSubscription a)
                 (trace (restorePurchases native service verify_outcome st))
           /\ In (ApiRequest "POST" "/api/revenuecat/verify" [])
                 (trace (restorePurchases native service verify_outcome st))).
Proof.
  split.
  - destruct (isInitialized st) eqn:Hi; [| refute_true Hi].
    destruct native eqn:Hn; [| refute_true Hi].
    destruct (service_purchaseProduct service productId)
      as [tr [result | e]] eqn:Hs; [| refute_true Hi].
    destruct (PurchasesService.success result) eqn:Hok; [| refute_true Hi].
    destruct (PurchasesService.customerInfo result) as [info |] eqn:Hinfo;
      [| refute_true Hi].
    destruct (service_getActiveSubscription service)
      as [tr_a [a | e]] eqn:Ha; [| refute_true Hi].
    intros _. split; [reflexivity |]. split; [reflexivity |].
    exists tr, result, info, tr_a, a.
    rewrite (purchaseProduct_accepted_run service verify_outcome st productId
               tr tr_a result info a Hi Hs Hok Hinfo Ha).
    repeat split; auto; unfold trace; cbn [fst];
      rewrite !in_app_iff; simpl; auto 10.
  - destruct (isInitialized st) eqn:Hi; [| refute_true Hi].
    destruct native eqn:Hn; [| refute_true Hi].
    destruct (service_restorePurchases service)
      as [tr [result | e]] eqn:Hs; [| refute_true Hi].
    destruct (PurchasesService.success result) eqn:Hok; [| refute_true Hi].
    destruct (PurchasesService.customerInfo result) as [info |] eqn:Hinfo;
      [| refute_true Hi].
    destruct (service_getActiveSubscription service)
      as [tr_a [a | e]] eqn:Ha; [| refute_true Hi].
    intros _. split; [reflexivity |]. split; [reflexivity |].
    exists tr, result, info, tr_a, a.
    rewrite (restorePurchases_accepted_run service verify_outcome st
               tr tr_a result info a Hi Hs Hok Hinfo Ha).
    repeat split; auto; unfold trace; cbn [fst];
      rewrite !in_app_iff; simpl; auto 10.
Qed.

End HookMore.

Lemma purchase_flow_completes_witness :
  UsePurchases.isLoading
    (UsePurchases.state_after Scenario.ready
       (trace (UsePurchases.purchaseProduct true
                 (UsePurchases.purchasesService true true
                    Scenario.sdk_purchase_refused)
                 (inr tt) Scenario.ready Scenario.monthly)))
  = false.
Proof.
  apply (proj2 (proj2 (purchase_flow_completes true
                         (UsePurchases.purchasesService true true
                            Scenario.sdk_purchase_refused)
                         (inr tt) Scenario.ready Scenario.monthly))).
  left. reflexivity.
Defined.

Lemma true_result_needs_provider_witness :
  UsePurchases.isInitialized Scenario.ready = true.
Proof.
  apply (proj1 (true_result_needs_provider true
                  (UsePurchases.purchasesService true true
                     Scenario.sdk_purchase_accepted)
                  (inr tt) Scenario.ready Scenario.monthly)).
  reflexivity.
Defined.

Section VerifyFacts.
Import UsePurchases.

Variable native : bool.
Variable verify_outcome : Thrown + unit.

(** X17. [verifyWithBackend] never rejects and shows no toast.  Off a
    native platform it does nothing at all.  On a native platform it
    issues one request, a [POST] to [/api/revenuecat/verify] with an empty
    body, and it schedules the [subscription-status-changed] event, one
    second later, exactly when that request is fulfilled. *)
Theorem verifyWithBackend_behaviour :
  outcome (verifyWithBackend native verify_outcome) = Return tt
  /\ toasts (trace (verifyWithBackend native verify_outcome)) = []
  /\ (native = false -> trace (verifyWithBackend native verify_outcome) = [])
  /\ (native = true ->
      forall method url body,
        In (ApiRequest method url body)
           (trace (verifyWithBackend native verify_outcome))
        <-> method = "POST" /\ url = "/api/revenuecat/verify" /\ body = [])
  /\ (forall ms name,
        In (SetTimeout ms name)
           (trace (verifyWithBackend native verify_outcome))
        <-> native = true /\ (exists u, verify_outcome = inr u)
            /\ ms = 1000 /\ name = "subscription-status-changed").
Proof.
  destruct native.
  - rewrite verifyWithBackend_native. unfold verify_trace.
    destruct verify_outcome as [e | []]; simpl;
      repeat split; intros; split_cases; subst; eauto 10;
      try congruence;
      match goal with
      | H : ApiRequest _ _ _ = ApiRequest _ _ _ |- _ =>
          injection H; intros; subst; reflexivity
      | H : SetTimeout _ _ = SetTimeout _ _ |- _ =>
          injection H; intros; subst; eauto
      | _ => idtac
      end.
  - rewrite verifyWithBackend_web. simpl.
    repeat split; intros; split_cases.
Qed.

End VerifyFacts.

Lemma verifyWithBackend_behaviour_witness :
  trace (UsePurchases.verifyWithBackend false Scenario.verification_rejected)
  = [].
Proof.
  apply (proj1 (proj2 (proj2 (verifyWithBackend_behaviour false
                                Scenario.verification_rejected)))).
  reflexivity.
Defined.

Section Unavailable.
Import UsePurchases.

Variable native : bool.
Variable service : Service.
Variable verify_outcome : Thrown + unit.
Variable st : HookState.

(** X18. Before initialisation, or off a native platform,
    [purchaseProduct] and [restorePurchases] never reach the service,
    whatever it is: they log, show one destructive toast carrying
    "Purchases not available on this platform", clear the loading flag
    without having set it, and resolve to false; nothing is stored and no
    request is issued. *)
Theorem purchases_unavailable (productId : string) :
  isInitialized st = false \/ native = false ->
  purchaseProduct native service verify_outcome st productId
  = ([ConsoleError "Purchase failed:";
      ToastShown {| title := "Purchase Error";
                    description := "Purchases not available on this platform";
                    variant := Some "destructive" |};
      SetIsLoading false],
     Return false)
  /\ restorePurchases native service verify_outcome st
     = ([ConsoleError "Restore failed:";
         ToastShown {| title := "Restore Error";
                       description := "Purchases not available on this platform";
                       variant := Some "destructive" |};
         SetIsLoading false],
        Return false)
  /\ activeSubscription
       (state_after st
          (trace (purchaseProduct native service verify_outcome st productId)))
     = activeSubscription st
  /\ requests
       (trace (purchaseProduct native service verify_outcome st productId))
     = [].
Proof.
  intros H.
  assert (Hg : negb (isInitialized st) || negb native = true).
  { destruct H as [-> | ->]; [reflexivity | apply orb_true_r]. }
  assert (Hp := purchaseProduct_unavailable service verify_outcome st
                  native productId Hg).
  split; [exact Hp |].
  split; [unfold restorePurchases; rewrite Hg; reflexivity |].
  rewrite Hp. split; reflexivity.
Qed.

End Unavailable.

Lemma purchases_unavailable_witness :
  outcome (UsePurchases.purchaseProduct false
             (UsePurchases.purchasesService false false
                Scenario.sdk_purchase_accepted)
             (inr tt) Examples.starting Scenario.monthly)
  = Return false.
Proof.
  rewrite (proj1 (purchases_unavailable false
                    (UsePurchases.purchasesService false false
                       Scenario.sdk_purchase_accepted)
                    (inr tt) Examples.starting Scenario.monthly
                    (or_introl eq_refl))).
  reflexivity.
Defined.

(* ================================================================== *)
(** * Further properties of the pricing page *)
(* ================================================================== *)

Section CheckoutMore.
Import Pricing.

Variable trim : string -> string.
Variable native : bool.
Variable couponCode : string.
Variable checkout_outcome : Thrown + (Thrown + CheckoutData).
Variable useCoupon : bool.

Local Abbreviation run :=
  (handleUpgrade trim native couponCode checkout_outcome useCoupon).

(** X19. [handleUpgrade] never rejects and shows at most one toast.  The
    form is submitted exactly when, off a native platform, the request and
    the parsing of its response succeed and the response carries a
    non-empty URL; it is then submitted to that URL and no toast is shown.
    The loading flag is cleared exactly when, off a native platform, the
    form is not submitted. *)
Theorem handleUpgrade_outcomes :
  outcome run = Return tt
  /\ (forall u, In (FormSubmit u) (trace run)
                <-> native = false
                    /\ checkout_outcome = inr (inr {| url := Some u |})
                    /\ u <> "")
  /\ (toasts (trace run) = [] <-> exists u, In (FormSubmit u) (trace run))
  /\ (List.length (toasts (trace run)) <= 1)%nat
  /\ (In (SetIsLoading false) (trace run)
      <-> native = false /\ forall u, ~ In (FormSubmit u) (trace run)).
Proof.
  unfold handleUpgrade.
  destruct native; simpl.
  { repeat split; intros; split_cases; auto 10; try (simpl; lia). }
  destruct checkout_outcome as [e | [e | [[u |]]]]; simpl.
  - repeat split; intros; split_cases; auto 10; try (simpl; lia).
  - repeat split; intros; split_cases; auto 10; try (simpl; lia).
  - destruct (String.eqb_spec u "") as [-> | Hu]; simpl.
    + repeat split; intros; split_cases; auto 10; try (simpl; lia);
        try congruence.
    + repeat split; intros; split_cases; auto 10; try (simpl; lia);
        try congruence.
      all: try match goal with
               | H : FormSubmit _ = FormSubmit _ |- _ => injection H as <-
               end; auto 10.
      all: try match goal with
               | H : inr _ = inr _ |- _ => injection H as <-
               end; auto 10.
      all: try (exists u; auto 10).
      all: try match goal with
               | H : forall u0, ~ _ |- _ => exfalso; apply (H u); auto 10
               end.
  - repeat split; intros; split_cases; auto 10; try (simpl; lia).
Qed.

(** X20. Whatever request [handleUpgrade] issues is the [POST] to
    [/api/create-checkout-session], and its body carries the coupon
    exactly when a coupon was asked for and the trimmed code is not empty;
    the code sent is the trimmed one. *)
Theorem handleUpgrade_request (method url : string)
        (body : list (string * string)) :
  In (ApiRequest method url body) (trace run) ->
  native = false
  /\ method = "POST"
  /\ url = "/api/create-checkout-session"
  /\ body = (if useCoupon && negb (trim couponCode =? "")%string
             then [("couponCode", trim couponCode)]
             else []).
Proof.
  unfold handleUpgrade.
  destruct native; simpl; [intros H; split_cases |].
  destruct checkout_outcome as [e | [e | [[u |]]]]; simpl;
    try destruct (String.eqb_spec u ""); simpl;
    intros H; split_cases;
    match goal with
    | H : ApiRequest _ _ _ = ApiRequest _ _ _ |- _ =>
        injection H as <- <- <-
    end; repeat split.
Qed.

End CheckoutMore.

Lemma handleUpgrade_outcomes_witness :
  In (FormSubmit "https://checkout.example/session")
     (trace (Pricing.handleUpgrade (fun s => s) false "" 
               (inr (inr {| Pricing.url :=
                              Some "https://checkout.example/session" |}))
               false)).
Proof.
  apply (proj1 (proj2 (handleUpgrade_outcomes (fun s => s) false ""
                         (inr (inr {| Pricing.url :=
                                 Some "https://checkout.example/session" |}))
                         false))).
  split; [reflexivity | split; [reflexivity | discriminate]].
Defined.

Lemma handleUpgrade_request_witness :
  In (ApiRequest "POST" "/api/create-checkout-session"
        [("couponCode", "FAMILY20")])
     (trace (Pricing.handleUpgrade (fun s => s) false "FAMILY20"
               (inl (new_Error "offline")) true))
  /\ [("couponCode", "FAMILY20")]
     = (if true && negb ("FAMILY20" =? "")%string
        then [("couponCode", "FAMILY20")]
        else []).
Proof.
  assert (Hin : In (ApiRequest "POST" "/api/create-checkout-session"
                      [("couponCode", "FAMILY20")])
                   (trace (Pricing.handleUpgrade (fun s => s) false "FAMILY20"
                             (inl (new_Error "offline")) true)))
    by (simpl; auto).
  split; [exact Hin |].
  exact (proj2 (proj2 (proj2 (handleUpgrade_request (fun s => s) false
                                "FAMILY20" (inl (new_Error "offline")) true
                                _ _ _ Hin)))).
Defined.

Section MobileHandlers.
Import PricingHandlers.

Variable native : bool.
Variable service : UsePurchases.Service.
Variable verify_outcome : Thrown + unit.
Variable purchases : UsePurchases.HookState.

(** X21. The page's mobile handlers never reject.  While the purchases
    hook is not initialised they only show the "Not Ready" toast and
    resolve to undefined, without reaching the hook's purchase or restore
    flow; once it is initialised they leave exactly the trace of that
    flow and resolve to its result. *)
Theorem mobile_handlers (productId : string) :
  (UsePurchases.isInitialized purchases = false ->
   handleMobilePurchase native service verify_outcome purchases productId
   = ([ToastShown not_ready], Return None)
   /\ handleRestorePurchases native service verify_outcome purchases
      = ([ToastShown not_ready], Return None))
  /\ (UsePurchases.isInitialized purchases = true ->
      (exists b,
          UsePurchases.purchaseProduct native service verify_outcome
            purchases productId
          = (trace (handleMobilePurchase native service verify_outcome
                      purchases productId),
             Return b)
          /\ outcome (handleMobilePurchase native service verify_outcome
                        purchases productId) = Return (Some b))
      /\ (exists b,
             UsePurchases.restorePurchases native service verify_outcome
               purchases
             = (trace (handleRestorePurchases native service verify_outcome
                         purchases),
                Return b)
             /\ outcome (handleRestorePurchases native service verify_outcome
                           purchases) = Return (Some b))).
Proof.
  unfold handleMobilePurchase, handleRestorePurchases.
  split; intros ->; simpl; [split; reflexivity |].
  destruct (purchaseProduct_returns native service verify_outcome purchases
              productId) as (tr & b & ->).
  destruct (restorePurchases_returns native service verify_outcome purchases)
    as (tr' & b' & ->).
  split; [exists b | exists b']; simpl; rewrite app_nil_r; auto.
Qed.

End MobileHandlers.

Lemma mobile_handlers_witness :
  PricingHandlers.handleMobilePurchase true
    (UsePurchases.purchasesService true false Scenario.sdk_purchase_accepted)
    (inr tt) Examples.starting Scenario.monthly
  = ([ToastShown PricingHandlers.not_ready], Return None).
Proof.
  apply (proj1 (mobile_handlers true
                  (UsePurchases.purchasesService true false
                     Scenario.sdk_purchase_accepted)
                  (inr tt) Examples.starting Scenario.monthly)).
  reflexivity.
Defined.

(* ================================================================== *)
(** * Further properties of the service: offerings and session *)
(* ================================================================== *)

Section OfferingsAndSession.
Import PurchasesService PurchasesLifecycle.

Variables (native initialized : bool) (sdk : Sdk).
Variables (logIn_outcome logOut_outcome : Thrown + unit).

(** X22. [getOfferings] never rejects and resolves to at most one
    offering: the provider's current offering, and only when the service
    is available and that offering has a list of available packages; a
    rejected provider call gives the empty list. *)
Theorem getOfferings_outcome :
  exists tr offerings,
    getOfferings native initialized sdk = (tr, Return offerings)
    /\ (offerings = []
        \/ exists current pkgs,
             offerings = [current]
             /\ isAvailable native initialized = true
             /\ Purchases_getOfferings sdk = inr (Some current)
             /\ availablePackages current = Some pkgs)
    /\ ((exists e, Purchases_getOfferings sdk = inl e) -> offerings = []).
Proof.
  unfold getOfferings, isAvailable.
  destruct initialized, native; simpl;
    try (do 2 eexists; split; [reflexivity |]; split; auto).
  destruct (Purchases_getOfferings sdk) as [e | [cur |]] eqn:Ho; simpl.
  - do 2 eexists; split; [reflexivity |]. split; auto.
  - destruct (availablePackages cur) as [pkgs |] eqn:Hp; simpl;
      do 2 eexists; (split; [reflexivity |]); (split; [| intros [e H]; discriminate H]).
    + right. exists cur, pkgs. auto.
    + left. reflexivity.
  - do 2 eexists; split; [reflexivity |].
    split; [left; reflexivity | intros [e H]; discriminate H].
Qed.

(** X23. The two session methods differ on failure: [logout] never
    rejects, a failing provider call being only logged, while [setUserId]
    rejects exactly when the service is available and the provider's
    log-in fails, and then with the provider's error. *)
Theorem session_methods (userId : string) :
  outcome (logout native initialized logOut_outcome) = Return tt
  /\ (forall e,
        outcome (setUserId native initialized logIn_outcome userId) = Throw e
        <-> isAvailable native initialized = true /\ logIn_outcome = inl e)
  /\ (forall e, logIn_outcome = inl e ->
        isAvailable native initialized = true ->
        trace (setUserId native initialized logIn_outcome userId)
        = [SdkCall "Purchases.logIn";
           ConsoleError "RevenueCat: Failed to set user ID"]).
Proof.
  unfold logout, setUserId, isAvailable.
  destruct initialized, native; simpl;
    try solve [repeat split; intros; split_cases; auto].
  destruct logOut_outcome as [e1 | []]; destruct logIn_outcome as [e2 | []];
    simpl; repeat split; intros; split_cases; auto; try congruence.
Qed.

End OfferingsAndSession.

Lemma getOfferings_outcome_witness :
  exists tr,
    PurchasesService.getOfferings true true
      {| PurchasesService.Purchases_getOfferings :=
           inl (new_Error "network");
         PurchasesService.Purchases_purchasePackage :=
           fun _ => inr Scenario.premium_customer;
         PurchasesService.Purchases_restorePurchases :=
           inr Scenario.premium_customer;
         PurchasesService.Purchases_getCustomerInfo :=
           inr Scenario.premium_customer |}
    = (tr, Return []).
Proof.
  destruct (getOfferings_outcome true true
              {| PurchasesService.Purchases_getOfferings :=
                   inl (new_Error "network");
                 PurchasesService.Purchases_purchasePackage :=
                   fun _ => inr Scenario.premium_customer;
                 PurchasesService.Purchases_restorePurchases :=
                   inr Scenario.premium_customer;
                 PurchasesService.Purchases_getCustomerInfo :=
                   inr Scenario.premium_customer |})
    as (tr & offerings & Hrun & _ & Hrejected).
  exists tr. rewrite Hrun. rewrite Hrejected; [reflexivity |].
  eexists. reflexivity.
Defined.

Lemma session_methods_witness :
  outcome (PurchasesLifecycle.setUserId true true
             (inl (new_Error "log-in failed")) "user-1")
  = Throw (new_Error "log-in failed").
Proof.
  apply (proj2 (proj1 (proj2 (session_methods true true
                                (inl (new_Error "log-in failed")) (inr tt)
                                "user-1"))
                      (new_Error "log-in failed"))).
  split; reflexivity.
Defined.

(* ================================================================== *)
(** * The purchase flow and the entitlement decision *)
(* ================================================================== *)

Section OrderFacts.
Import TraceOrder.

Variables earlier later : event -> bool.

Lemma preceded_by_split (tr : list event) :
  (forall e, later e = true -> earlier e = false) ->
  preceded_by earlier later tr = true ->
  forall pre e post,
    tr = pre ++ e :: post -> later e = true ->
    exists c, In c pre /\ earlier c = true.
Proof.
  intros Hdisj. induction tr as [| x tr IH]; intros H pre e post Htr He.
  - destruct pre; discriminate Htr.
  - destruct pre as [| y pre]; simpl in Htr; injection Htr as <- Htr.
    + simpl in H. rewrite (Hdisj _ He), He in H. discriminate H.
    + simpl in H. destruct (earlier x) eqn:Hx.
      * exists x. split; [left; reflexivity | exact Hx].
      * destruct (later x); [discriminate H |].
        destruct (IH H pre e post Htr He) as (c & Hc & Hec).
        exists c. split; [right; exact Hc | exact Hec].
Qed.

Lemma preceded_by_skip (l r : list event) :
  (forall e, In e l -> later e = false) ->
  preceded_by earlier later r = true ->
  preceded_by earlier later (l ++ r) = true.
Proof.
  intros Hl Hr. induction l as [| x l IH]; [exact Hr |].
  simpl. destruct (earlier x); [reflexivity |].
  rewrite (Hl x (or_introl eq_refl)). apply IH.
  intros e He. apply Hl. right. exact He.
Qed.

Lemma preceded_by_found (l r : list event) :
  (forall e, In e l -> later e = false) ->
  existsb earlier l = true ->
  preceded_by earlier later (l ++ r) = true.
Proof.
  intros Hl Hex. induction l as [| x l IH]; [discriminate Hex |].
  simpl in *. destruct (earlier x); [reflexivity |].
  rewrite (Hl x (or_introl eq_refl)). apply IH; [| exact Hex].
  intros e He. apply Hl. right. exact He.
Qed.

Lemma preceded_by_none (tr : list event) :
  (forall e, In e tr -> later e = false) ->
  preceded_by earlier later tr = true.
Proof.
  intros H. rewrite <- (app_nil_r tr).
  apply preceded_by_skip; [exact H | reflexivity].
Qed.

End OrderFacts.

Section Classified.
Import TraceOrder.

(** What only logs or calls the SDK is no request, no settlement, no
    refresh and no announcement. *)
Lemma quiet_unclassified (tr : list event) :
  forallb quiet tr = true ->
  forall e, In e tr ->
    is_verify_request e = false /\ is_verify_settled e = false
    /\ is_refresh e = false /\ is_announcement e = false.
Proof.
  intros Hq e He. rewrite forallb_forall in Hq. specialize (Hq e He).
  destruct e; try discriminate Hq; repeat split.
Qed.

Variables (native initialized : bool) (sdk : PurchasesService.Sdk).

Lemma service_purchaseProduct_called (productId : string) :
  exists tr result,
    PurchasesService.purchaseProduct native initialized sdk productId
    = (tr, Return result)
    /\ forallb quiet tr = true
    /\ (PurchasesService.success result = true ->
        existsb is_provider_call tr = true).
Proof.
  unfold PurchasesService.purchaseProduct.
  destruct (negb initialized || negb native); simpl;
    [do 2 eexists; split; [reflexivity | split; [reflexivity | discriminate]] |].
  destruct (getOfferings_returns native initialized sdk)
    as (tr & offerings & -> & Hq). simpl.
  destruct (PurchasesService.find_package productId offerings None) as [pkg |];
    simpl.
  - destruct (PurchasesService.Purchases_purchasePackage sdk pkg) as [e | info];
      simpl; do 2 eexists; (split; [reflexivity |]);
      (split; [rewrite !forallb_app, Hq; reflexivity |]).
    + discriminate.
    + intros _. rewrite existsb_app. simpl. apply orb_true_r.
  - do 2 eexists; split; [reflexivity |].
    split; [rewrite !forallb_app, Hq; reflexivity | discriminate].
Qed.

Lemma service_restorePurchases_called :
  exists tr result,
    PurchasesService.restorePurchases native initialized sdk
    = (tr, Return result)
    /\ forallb quiet tr = true
    /\ (PurchasesService.success result = true ->
        existsb is_provider_call tr = true).
Proof.
  unfold PurchasesService.restorePurchases.
  destruct (negb initialized || negb native); simpl;
    [do 2 eexists; split; [reflexivity | split; [reflexivity | discriminate]] |].
  destruct (PurchasesService.Purchases_restorePurchases sdk) as [e | info];
    simpl; do 2 eexists; (split; [reflexivity |]);
    (split; [reflexivity |]); [discriminate | reflexivity].
Qed.

End Classified.

(** Splits the membership of an event in a trace built with [::] and
    [++] into its cases. *)
Ltac in_cases :=
  repeat match goal with
         | H : In _ (_ ++ _) |- _ => apply in_app_or in H; destruct H as [H | H]
         | H : In _ (_ :: _) |- _ => destruct H as [H | H]
         | H : In _ [] |- _ => contradiction H
         end.

Section FlowShape.
Import UsePurchases TraceOrder.

Variables (native initialized : bool) (sdk : PurchasesService.Sdk).
Variable verify_outcome : Thrown + unit.
Variable st : HookState.

Local Abbreviation service := (purchasesService native initialized sdk).

(** A run of the flow over the service either went through the provider,
    stored its report, verified and announced, or resolved to false
    without request, refresh or announcement. *)
Local Abbreviation shaped run :=
  ((exists tr_p tr_a a t,
       forallb quiet tr_p = true
       /\ forallb quiet tr_a = true
       /\ existsb is_provider_call tr_p = true
       /\ variant t = None
       /\ run = (([SetIsLoading true] ++ tr_p ++ tr_a
                  ++ [SetActiveSubscription a])
                 ++ verify_trace verify_outcome
                 ++ [ToastShown t; SetIsLoading false],
                 Return true))
   \/ (exists tr,
          run = (tr, Return false)
          /\ forall e, In e tr ->
               is_verify_request e = false /\ is_verify_settled e = false
               /\ is_refresh e = false /\ is_announcement e = false)).

Lemma purchaseProduct_shaped (productId : string) :
  shaped (purchaseProduct native service verify_outcome st productId).
Proof.
  destruct (isInitialized st) eqn:Hi.
  2:{ right. eexists. split.
      - apply purchaseProduct_unavailable. rewrite Hi. reflexivity.
      - intros e He. in_cases; subst e; repeat split. }
  destruct native eqn:Hn.
  2:{ right. eexists. split.
      - apply purchaseProduct_unavailable. rewrite Hi. reflexivity.
      - intros e He. in_cases; subst e; repeat split. }
  destruct (service_purchaseProduct_called true initialized sdk productId)
    as (tr_p & result & Hs & Hq & Hcall).
  destruct (service_getActiveSubscription_returns true initialized sdk)
    as (tr_a & a & Ha & Hqa & _).
  destruct (PurchasesService.success result) eqn:Hok.
  - destruct (PurchasesService.customerInfo result) as [info |] eqn:Hinfo.
    + left. exists tr_p, tr_a, a, purchase_successful.
      repeat split; auto.
      apply (purchaseProduct_accepted_run
               (purchasesService true initialized sdk) verify_outcome st productId
               tr_p tr_a result info a Hi Hs Hok Hinfo Ha).
    + right. unfold purchaseProduct. rewrite Hi. cbn [negb orb].
      cbn [service_purchaseProduct purchasesService].
      rewrite Hs. simpl. rewrite Hok, Hinfo.
      destruct (PurchasesService.error result) as [err |];
        [destruct (PurchasesService.err_code err =? "PURCHASE_CANCELLED")%string |];
        simpl; eexists; (split; [reflexivity |]);
        intros e He; in_cases; try (subst e; repeat split);
        apply (quiet_unclassified _ Hq e He).
  - right. unfold purchaseProduct. rewrite Hi. cbn [negb orb].
    cbn [service_purchaseProduct purchasesService].
    rewrite Hs. simpl. rewrite Hok.
    destruct (PurchasesService.error result) as [err |];
      [destruct (PurchasesService.err_code err =? "PURCHASE_CANCELLED")%string |];
      simpl; eexists; (split; [reflexivity |]);
      intros e He; in_cases; try (subst e; repeat split);
      apply (quiet_unclassified _ Hq e He).
Qed.

Lemma restorePurchases_shaped :
  shaped (restorePurchases native service verify_outcome st).
Proof.
  destruct (isInitialized st) eqn:Hi.
  2:{ right. eexists. split.
      - unfold restorePurchases. rewrite Hi. reflexivity.
      - intros e He. in_cases; subst e; repeat split. }
  destruct native eqn:Hn.
  2:{ right. eexists. split.
      - unfold restorePurchases. rewrite Hi. reflexivity.
      - intros e He. in_cases; subst e; repeat split. }
  destruct (service_restorePurchases_called true initialized sdk)
    as (tr_p & result & Hs & Hq & Hcall).
  destruct (service_getActiveSubscription_returns true initialized sdk)
    as (tr_a & a & Ha & Hqa & _).
  destruct (PurchasesService.success result) eqn:Hok.
  - destruct (PurchasesService.customerInfo result) as [info |] eqn:Hinfo.
    + left. exists tr_p, tr_a, a.
      exists (if match a with Some sub => isActive sub | None => false end
              then purchases_restored else no_purchases_found).
      repeat split; auto.
      * destruct (match a with Some sub => isActive sub | None => false end);
          reflexivity.
      * apply (restorePurchases_accepted_run
                 (purchasesService true initialized sdk) verify_outcome st
                 tr_p tr_a result info a Hi Hs Hok Hinfo Ha).
    + right. unfold restorePurchases. rewrite Hi. cbn [negb orb].
      cbn [service_restorePurchases purchasesService].
      rewrite Hs. simpl. rewrite Hok, Hinfo.
      destruct (PurchasesService.error result) as [err |];
        simpl; eexists; (split; [reflexivity |]);
        intros e He; in_cases; try (subst e; repeat split);
        apply (quiet_unclassified _ Hq e He).
  - right. unfold restorePurchases. rewrite Hi. cbn [negb orb].
    cbn [service_restorePurchases purchasesService].
    rewrite Hs. simpl. rewrite Hok.
    destruct (PurchasesService.error result) as [err |];
      simpl; eexists; (split; [reflexivity |]);
      intros e He; in_cases; try (subst e; repeat split);
      apply (quiet_unclassified _ Hq e He).
Qed.

End FlowShape.

Section ClientSuccess.
Import UsePurchases TraceOrder.

Variable householdStatus :
  option UseHouseholdSubscription.HouseholdSubscriptionStatus.
Variable householdLoading : bool.
Variable native : bool.
Variable user : option UseHouseholdSubscription.User.
Variable hooks : PricingPage.Hooks.
Variables (initialized : bool) (sdk : PurchasesService.Sdk).
Variable verify_outcome : Thrown + unit.
Variable productId : string.

Local Abbreviation decision h :=
  (PricingPage.hasPremium householdStatus householdLoading native user h).

Lemma request_not_provider_call (e : event) :
  is_verify_request e = true -> is_provider_call e = false.
Proof. destruct e; simpl; intros H; try discriminate H; reflexivity. Qed.

Lemma refresh_not_fulfilment (e : event) :
  is_refresh e = true -> is_verify_fulfilled e = false.
Proof. destruct e; simpl; intros H; try discriminate H; reflexivity. Qed.

Lemma announcement_not_settlement (e : event) :
  is_announcement e = true -> is_verify_settled e = false.
Proof. destruct e; simpl; intros H; try discriminate H; reflexivity. Qed.


End ClientSuccess.


Section VerificationFailure.
Import UsePurchases.

Variable service : Service.
Variable hooks : PricingPage.Hooks.


End VerificationFailure.


